(** * The question-answering backend, app/backend/app.py

    A shallow embedding of the Flask handlers of [app/backend/app.py] and of the
    Python built-ins they use, followed by the properties of the handlers.

    Conventions of the embedding:
    - a Python [str] is a [string]; one [ascii] stands for one character
      (code points below 256);
    - a Python [int] is a [Z]; the reading of [time.time()] is a rational [Q];
    - a value parsed from or rendered to JSON is a [json];
    - a call that may raise returns an [outcome]; module state ([openai_token],
      [openai.api_key]) and the state of the storage account and of the search
      index are passed explicitly;
    - the two polling loops are given fuel: [None] is "still running";
    - output on the console ([print], [logging.exception]) is left out. *)

From Stdlib Require Import ZArith QArith_base Floats.PrimFloat Ascii.
From stdpp Require Import base strings list gmap.

Set Warnings "-register-all".

(** ** Exceptions *)

(** An instance of a subclass of Python's [Exception]: its class and [str(e)]. *)
Record exn := Exn { exn_type : string; exn_str : string }.

Inductive outcome (A : Type) : Type :=
| Ret (a : A)
| Raise (e : exn).
Arguments Ret {A} a.
Arguments Raise {A} e.

#[export] Instance outcome_ret : MRet outcome := fun _ a => Ret a.
#[export] Instance outcome_bind : MBind outcome := fun _ _ k m =>
  match m with
  | Ret a => k a
  | Raise e => Raise e
  end.

(** [try: m except Exception as e: h e] *)
Definition try_except {A} (m : outcome A) (h : exn -> outcome A) : outcome A :=
  match m with
  | Ret a => Ret a
  | Raise e => h e
  end.

Definition KeyError (key : string) : exn := Exn "KeyError" ("'" +:+ key +:+ "'").
Definition TypeError (msg : string) : exn := Exn "TypeError" msg.
Definition AttributeError (msg : string) : exn := Exn "AttributeError" msg.
Definition ResourceNotFoundError (msg : string) : exn :=
  Exn "ResourceNotFoundError" msg.

(** ** str methods *)

(** [str.isspace] on one character: the white space of Unicode below 256. *)
Definition isspace (c : ascii) : bool :=
  let n := N_of_ascii c in
  ((9 <=? n) && (n <=? 13) || (28 <=? n) && (n <=? 32)
   || (n =? 133) || (n =? 160))%N.

Fixpoint dropwhile {A} (p : A -> bool) (l : list A) : list A :=
  match l with
  | [] => []
  | x :: l' => if p x then dropwhile p l' else l
  end.

Definition lstrip_chars (l : list ascii) : list ascii := dropwhile isspace l.
Definition rstrip_chars (l : list ascii) : list ascii :=
  rev (dropwhile isspace (rev l)).

(** [s.strip()] *)
Definition strip (s : string) : string :=
  String.string_of_list_ascii
    (rstrip_chars (lstrip_chars (String.list_ascii_of_string s))).

(** [s.rfind(sub)]: the highest index at which [sub] occurs in [s], or [-1].
    [rfind_from] scans [s] from index [i] on and keeps the last match seen. *)
Fixpoint rfind_from (sub s : string) (i last : Z) : Z :=
  let last' := if String.prefix sub s then i else last in
  match s with
  | EmptyString => last'
  | String _ s' => rfind_from sub s' (i + 1) last'
  end.

Definition rfind (s sub : string) : Z := rfind_from sub s 0 (-1).

(** [s[:stop]]: a negative [stop] counts from the end, and both ends are
    clamped to the string. *)
Definition slice_to (s : string) (stop : Z) : string :=
  let n := Z.of_nat (String.length s) in
  let stop' := if (stop <? 0)%Z then Z.max (stop + n) 0 else Z.min stop n in
  String.substring 0 (Z.to_nat stop') s.

(** ** JSON values and the Python view of them *)

Inductive json : Type :=
| JNull
| JBool (b : bool)
| JInt (z : Z)
| JFloat (f : float)
| JStr (s : string)
| JList (l : list json)
| JDict (d : list (string * json)).

(** Lookup in a dict kept as a list of items (keys are distinct in a parsed
    JSON object; the first item with the key is the one found). *)
Fixpoint assoc {V} (key : string) (d : list (string * V)) : option V :=
  match d with
  | [] => None
  | (k, v) :: d' => if String.eqb k key then Some v else assoc key d'
  end.

(** [bool(x)] *)
Definition truthy (x : json) : bool :=
  match x with
  | JNull => false
  | JBool b => b
  | JInt z => negb (z =? 0)%Z
  | JFloat f => negb (PrimFloat.eqb f PrimFloat.zero)
  | JStr s => negb (String.eqb s "")
  | JList l => negb (Nat.eqb (length l) 0)
  | JDict d => negb (Nat.eqb (length d) 0)
  end.

(** [x or y] *)
Definition py_or (x y : json) : json := if truthy x then x else y.

(** [type(x).__name__] *)
Definition type_name (x : json) : string :=
  match x with
  | JNull => "NoneType"
  | JBool _ => "bool"
  | JInt _ => "int"
  | JFloat _ => "float"
  | JStr _ => "str"
  | JList _ => "list"
  | JDict _ => "dict"
  end.

(** [obj[key]] for a [str] key (messages as CPython 3.11 words them). *)
Definition getitem (obj : json) (key : string) : outcome json :=
  match obj with
  | JDict d =>
      match assoc key d with
      | Some v => Ret v
      | None => Raise (KeyError key)
      end
  | JList _ =>
      Raise (TypeError "list indices must be integers or slices, not str")
  | JStr _ => Raise (TypeError "string indices must be integers, not 'str'")
  | _ => Raise (TypeError ("'" +:+ type_name obj +:+ "' object is not subscriptable"))
  end.

(** [obj.get(key)]: only a dict has the method. *)
Definition get (obj : json) (key : string) : outcome json :=
  match obj with
  | JDict d => Ret (default JNull (assoc key d))
  | _ => Raise (AttributeError
                  ("'" +:+ type_name obj +:+ "' object has no attribute 'get'"))
  end.

(** [d.get(key)] on a dict whose keys are [str]: an unhashable key raises, any
    other key that is not a [str] equals none of the keys. *)
Definition dict_get {V} (d : gmap string V) (key : json) : outcome (option V) :=
  match key with
  | JStr s => Ret (d !! s)
  | JList _ | JDict _ =>
      Raise (TypeError ("unhashable type: '" +:+ type_name key +:+ "'"))
  | _ => Ret None
  end.

(** [s.startswith(prefix)] where [prefix] came out of JSON. *)
Definition startswith (s : string) (prefix : json) : outcome bool :=
  match prefix with
  | JStr p => Ret (String.prefix p s)
  | _ => Raise (TypeError
                  ("startswith first arg must be str or a tuple of str, not "
                   +:+ type_name prefix))
  end.

(** [os.environ.get(key) or fallback] *)
Definition environ_get_or (environ : gmap string string) (key fallback : string)
  : string :=
  match environ !! key with
  | Some v => if String.eqb v "" then fallback else v
  | None => fallback
  end.

(** ** Responses *)

Inductive body : Type :=
| JsonBody (j : json)
| TextBody (s : string).

Record response := Response { resp_body : body; status : Z }.

(** [jsonify(x)] and [jsonify(x), code] *)
Definition jsonify (x : json) : response := Response (JsonBody x) 200.
Definition with_status (r : response) (code : Z) : response :=
  Response (resp_body r) code.

(** ** The token manager *)

(** What [azure_credential.get_token] returns. *)
Record AccessToken := { token : string; expires_on : Z }.

(** The module state written by [ensure_openai_token]. *)
Record globals := { openai_token : AccessToken; openai_api_key : string }.

(** What a handler reads from outside while it checks the token: the clock, and
    the answer the credential gives to [get_token] at that moment. *)
Record env := { time_time : Q; get_token : outcome AccessToken }.

(** [int(x)] on a float: truncation towards zero. *)
Definition int (x : Q) : Z := (Qnum x ÷ Z.pos (Qden x))%Z.

Definition ensure_openai_token (ev : env) (g : globals) : globals * outcome () :=
  if (expires_on (openai_token g) <? int (time_time ev) - 60)%Z then
    match get_token ev with
    | Ret t => ({| openai_token := t; openai_api_key := token t |}, Ret ())
    | Raise e => (g, Raise e)
    end
  else (g, Ret ()).

(** ** The strategies and the two question handlers *)

(** A strategy object. The approach classes are declared outside this file;
    what the handlers use of one is its [run] method, which works with the API
    key in force and returns a JSON document or raises. An instance of such a
    class is true in a condition. *)
Record Approach := { run : globals -> json -> json -> outcome json }.

Section Handlers.

(** The objects built at start-up: [RetrieveThenReadApproach(..)],
    [ReadRetrieveReadApproach(..)], [ReadDecomposeAsk(..)] and
    [ChatReadRetrieveReadApproach(..)]. *)
Variables rtr rrr rda chat_rrr : Approach.

Definition ask_approaches : gmap string Approach :=
  {[ "rtr" := rtr; "rrr" := rrr; "rda" := rda ]}.

Definition chat_approaches : gmap string Approach :=
  {[ "rrr" := chat_rrr ]}.

Definition unknown_approach : response :=
  with_status (jsonify (JDict [("error", JStr "unknown approach")])) 400.

(** The [except Exception as e] clause of both handlers. *)
Definition error_500 (e : exn) : response :=
  with_status (jsonify (JDict [("error", JStr (exn_str e))])) 500.

(** The body of the [try] statement of [ask]. *)
Definition ask_try (approach request_json : json) (g : globals)
  : outcome response :=
  impl ← dict_get ask_approaches approach;
  match impl with
  | None => Ret unknown_approach
  | Some impl =>
      question ← getitem request_json "question";
      overrides ← get request_json "overrides";
      r ← run impl g question (py_or overrides (JDict []));
      Ret (jsonify r)
  end.

Definition ask (request_json : json) (ev : env) (g : globals)
  : globals * outcome response :=
  match ensure_openai_token ev g with
  | (g', Raise e) => (g', Raise e)
  | (g', Ret _) =>
      match getitem request_json "approach" with
      | Raise e => (g', Raise e)
      | Ret approach =>
          (g', try_except (ask_try approach request_json g')
                 (fun e => Ret (error_500 e)))
      end
  end.

(** The body of the [try] statement of [chat]. *)
Definition chat_try (approach request_json : json) (g : globals)
  : outcome response :=
  impl ← dict_get chat_approaches approach;
  match impl with
  | None => Ret unknown_approach
  | Some impl =>
      history ← getitem request_json "history";
      overrides ← get request_json "overrides";
      r ← run impl g history (py_or overrides (JDict []));
      Ret (jsonify r)
  end.

Definition chat (request_json : json) (ev : env) (g : globals)
  : globals * outcome response :=
  match ensure_openai_token ev g with
  | (g', Raise e) => (g', Raise e)
  | (g', Ret _) =>
      match getitem request_json "approach" with
      | Raise e => (g', Raise e)
      | Ret approach =>
          (g', try_except (chat_try approach request_json g')
                 (fun e => Ret (error_500 e)))
      end
  end.

End Handlers.

(** ** Blob storage *)

(** An item of [blob_container.list_blobs()]; [last_modified] is a point in
    time, counted in microseconds. *)
Record BlobProperties := { name : string; last_modified : Z; etag : string }.

(** The storage account: for each container that exists, its blobs in the
    order [list_blobs] enumerates them. *)
Abbreviation account := (gmap string (list BlobProperties)).

Definition list_blobs (container : string) (acct : account)
  : outcome (list BlobProperties) :=
  match acct !! container with
  | Some blobs => Ret blobs
  | None => Raise (ResourceNotFoundError "The specified container does not exist.")
  end.

(** [d[key] = v] on a dict kept in insertion order: an existing key keeps its
    place, a new key goes last. *)
Fixpoint setitem {V} (key : string) (v : V) (d : list (string * V))
  : list (string * V) :=
  match d with
  | [] => [(key, v)]
  | (k, x) :: d' =>
      if String.eqb k key then (k, v) :: d' else (k, x) :: setitem key v d'
  end.

(** The key under which [get_document_names] files a blob. *)
Definition base_name (full_blob_name : string) : string :=
  let last_hyphen_index := rfind full_blob_name "-" in
  strip (slice_to full_blob_name last_hyphen_index).

(** One turn of the loop of [get_document_names]. *)
Definition get_document_names_step (blob_data : list (string * (Z * string)))
    (blob : BlobProperties) : list (string * (Z * string)) :=
  match assoc (base_name (name blob)) blob_data with
  | Some (stored, _) =>
      if (stored <? last_modified blob)%Z then blob_data
      else setitem (base_name (name blob)) (last_modified blob, etag blob) blob_data
  | None =>
      setitem (base_name (name blob)) (last_modified blob, etag blob) blob_data
  end.

(** ** The search index *)

(** A hit of a search: a dict that holds the key of the document under ["id"]
    (the key field of the index) next to its other fields. *)
Record document := { doc_id : string; doc_fields : list (string * json) }.

(** What [search_client.search] returns: the total number of matches, as
    [include_total_count=True] asks for, and the hits that iterating yields. *)
Record SearchItemPaged := { get_count : nat; hits : list document }.

(** The search service as the handlers use it, over any state [I] of the index:
    [search search_text filter top], [delete_documents documents], and what the
    passing of some seconds does to the index. *)
Class SearchService (I : Type) := {
  search : string -> option string -> Z -> I -> SearchItemPaged;
  delete_documents : list json -> I -> I;
  sleep : Z -> I -> I
}.

(** ** Calls to the outside, in the order they are made *)

Inductive event : Type :=
| EvListBlobs (container : string)
| EvDeleteBlob (container blob_name : string)
| EvSearch (search_text : string) (filter : option string) (top : Z)
| EvDeleteDocuments (documents : list json)
| EvSleep (seconds : Z).

Record world (I : Type) := World {
  storage : account;
  index : I;
  trace : list event
}.
Arguments World {I} storage index trace.
Arguments storage {I} w.
Arguments index {I} w.
Arguments trace {I} w.

Definition log {I} (ev : event) (w : world I) : world I :=
  World (storage w) (index w) (trace w ++ [ev]).

(** [[{"id": d["id"]} for d in results]] *)
Definition id_documents (results : list document) : list json :=
  map (fun d => JDict [("id", JStr (doc_id d))]) results.

(** ** The document handlers *)

Section Documents.

(** [os.environ] at start-up. *)
Variable environ : gmap string string.

(** The refusal, if any, with which the storage service answers the request
    to delete a blob that exists (an active lease, a lost connection). *)
Variable delete_fault : string -> string -> option exn.

(** The text an f-string renders for a value that is not a [str]. *)
Variable str_of_value : json -> string.

Context {I : Type} `{SearchService I}.

Definition AZURE_STORAGE_CONTAINER : string :=
  environ_get_or environ "AZURE_STORAGE_CONTAINER" "content".

(** [f"{x}"] *)
Definition format (x : json) : string :=
  match x with
  | JStr s => s
  | _ => str_of_value x
  end.

Definition get_document_names (acct : account)
  : outcome (list (string * (Z * string))) :=
  blobs ← list_blobs AZURE_STORAGE_CONTAINER acct;
  Ret (fold_left get_document_names_step blobs []).

(** The loop of [delete_all_documents]; [None] when the fuel runs out before
    the loop is left. *)
Fixpoint delete_all_documents (fuel : nat) (w : world I)
  : world I * option response :=
  match fuel with
  | O => (w, None)
  | S fuel' =>
      let r := search "*" None 1000 (index w) in
      let w1 := log (EvSearch "*" None 1000) w in
      if Nat.eqb (get_count r) 0 then
        (w1, Some (Response (TextBody "Deleted all documents") 200))
      else
        let documents := id_documents (hits r) in
        let w2 := log (EvDeleteDocuments documents)
                    (World (storage w1) (delete_documents documents (index w1))
                       (trace w1)) in
        let w3 := log (EvSleep 2)
                    (World (storage w2) (sleep 2 (index w2)) (trace w2)) in
        delete_all_documents fuel' w3
  end.

(** [blob_client.get_blob_client(container, blob_name).delete_blob()] *)
Definition delete_blob (container blob_name : string) (w : world I)
  : world I * outcome () :=
  let w1 := log (EvDeleteBlob container blob_name) w in
  match storage w1 !! container with
  | None =>
      (w1, Raise (ResourceNotFoundError "The specified container does not exist."))
  | Some blobs =>
      if existsb (fun b => String.eqb (name b) blob_name) blobs then
        match delete_fault container blob_name with
        | Some e => (w1, Raise e)
        | None =>
            (World
               (<[container :=
                    List.filter (fun b => negb (String.eqb (name b) blob_name))
                      blobs]> (storage w1))
               (index w1) (trace w1),
             Ret ())
        end
      else (w1, Raise (ResourceNotFoundError "The specified blob does not exist."))
  end.

(** The [for blob in blob_list] loop of [delete_document], over the blobs as
    they were enumerated: the test of the name is outside the [try], the
    deletion inside it, and what the deletion raises is dropped. *)
Fixpoint delete_blobs (blob_name_to_delete : json)
    (blob_list : list BlobProperties) (w : world I) : world I * outcome () :=
  match blob_list with
  | [] => (w, Ret ())
  | blob :: rest =>
      match startswith (name blob) blob_name_to_delete with
      | Raise e => (w, Raise e)
      | Ret false => delete_blobs blob_name_to_delete rest w
      | Ret true =>
          delete_blobs blob_name_to_delete rest
            (fst (delete_blob "content" (name blob) w))
      end
  end.

(** The [while True] loop of [delete_document]. *)
Fixpoint delete_sections (fuel : nat) (filter : string) (w : world I)
  : world I * option () :=
  match fuel with
  | O => (w, None)
  | S fuel' =>
      let r := search "*" (Some filter) 1000 (index w) in
      let w1 := log (EvSearch "*" (Some filter) 1000) w in
      let results := hits r in
      if Nat.eqb (length results) 0 then (w1, Some ())
      else
        let documents := id_documents results in
        let w2 := log (EvDeleteDocuments documents)
                    (World (storage w1) (delete_documents documents (index w1))
                       (trace w1)) in
        let w3 := log (EvSleep 2)
                    (World (storage w2) (sleep 2 (index w2)) (trace w2)) in
        delete_sections fuel' filter w3
  end.

Definition missing_name : response :=
  with_status (jsonify (JDict [("error", JStr "Missing 'name' parameter")])) 400.

Definition delete_document (fuel : nat) (data : json) (w : world I)
  : world I * option (outcome response) :=
  match get data "name" with
  | Raise e => (w, Some (Raise e))
  | Ret blob_name_to_delete =>
      if negb (truthy blob_name_to_delete) then (w, Some (Ret missing_name))
      else
        let w1 := log (EvListBlobs AZURE_STORAGE_CONTAINER) w in
        match list_blobs AZURE_STORAGE_CONTAINER (storage w1) with
        | Raise e => (w1, Some (Raise e))
        | Ret blob_list =>
            match delete_blobs blob_name_to_delete blob_list w1 with
            | (w2, Raise e) => (w2, Some (Raise e))
            | (w2, Ret _) =>
                let filter :=
                  "sourcefile eq '" +:+ format blob_name_to_delete +:+ ".pdf'" in
                match delete_sections fuel filter w2 with
                | (w3, None) => (w3, None)
                | (w3, Some _) => (w3, Some (Ret (Response (TextBody "200") 200)))
                end
            end
        end
  end.

End Documents.

(** ** A search service that applies every request at once

    The handlers are stated over any [SearchService]; this one, an index kept as
    the list of its documents, serves to run them on concrete inputs. *)

(** The filters the handlers send have the form [sourcefile eq '<value>']. *)
Definition matches (filter : option string) (d : document) : bool :=
  match filter with
  | None => true
  | Some f =>
      match assoc "sourcefile" (doc_fields d) with
      | Some (JStr v) => String.eqb f ("sourcefile eq '" +:+ v +:+ "'")
      | _ => false
      end
  end.

Definition named_by (documents : list json) (d : document) : bool :=
  existsb (fun j => match getitem j "id" with
                    | Ret (JStr k) => String.eqb k (doc_id d)
                    | _ => false
                    end) documents.

#[export] Instance prompt_index : SearchService (list document) := {
  search _ filter top idx :=
    let found := List.filter (matches filter) idx in
    {| get_count := length found; hits := take (Z.to_nat top) found |};
  delete_documents documents idx :=
    List.filter (fun d => negb (named_by documents d)) idx;
  sleep _ idx := idx
}.

(** A strategy that answers with what it was called with. *)
Definition echo : Approach :=
  {| run := fun _ question overrides =>
              Ret (JDict [("question", question); ("overrides", overrides)]) |}.

(** A strategy whose [run] raises. *)
Definition failing (e : exn) : Approach := {| run := fun _ _ _ => Raise e |}.

(** ** Notions used in the statements *)



(** Blob [b], the [i]-th enumerated, is the one retained for key [k]: no blob
    filed under [k] is older, and none of the same date comes after it. *)
Definition retained (blobs : list BlobProperties) (k : string) (i : nat)
    (b : BlobProperties) : Prop :=
  blobs !! i = Some b /\ base_name (name b) = k /\
  forall j b', blobs !! j = Some b' -> base_name (name b') = k ->
    (last_modified b <= last_modified b')%Z /\
    (last_modified b' = last_modified b -> j <= i).

(** What the loop of [get_document_names] maintains: after the blobs [blobs],
    the dict [d] has one item for each key met so far, holding the blob
    retained for it. *)
Definition filed (blobs : list BlobProperties) (d : list (string * (Z * string)))
  : Prop :=
  NoDup d.*1 /\
  forall k,
    match assoc k d with
    | Some v => exists i b, retained blobs k i b /\ v = (last_modified b, etag b)
    | None => forall b, b ∈ blobs -> base_name (name b) <> k
    end.

(** The overrides as the specification words them: the value of the request,
    or an empty dict when it is absent or null. *)
Definition stated_overrides (d : list (string * json)) : json :=
  match assoc "overrides" d with
  | None | Some JNull => JDict []
  | Some v => v
  end.

(** The deletions of blobs requested in a trace, as (container, name). *)
Definition blob_deletions (t : list event) : list (string * string) :=
  flat_map (fun ev => match ev with
                      | EvDeleteBlob c n => [(c, n)]
                      | _ => []
                      end) t.

(** What [delete_all_documents] returns. *)
Definition deleted_all : response :=
  Response (TextBody "Deleted all documents") 200.

Section Rounds.

Context {I : Type} `{SearchService I}.

(** The total that the search of [delete_all_documents] reports. *)
Definition count (w : world I) : nat :=
  get_count (search "*" None 1000 (index w)).

(** A turn of the loop of [delete_all_documents] that goes on to the next:
    search, delete what was returned, wait. *)
Definition round (w : world I) : world I :=
  let documents := id_documents (hits (search "*" None 1000 (index w))) in
  World (storage w)
    (sleep 2 (delete_documents documents (index w)))
    (trace w ++ [EvSearch "*" None 1000; EvDeleteDocuments documents; EvSleep 2]).

(** Every delete batch eventually reduces the reported count: from each
    state that the rounds reach with documents left, some further rounds
    bring the count below what it was. *)
Definition eventually_reduces (w : world I) : Prop :=
  forall k, count (Nat.iter k round w) <> 0 ->
    exists n, count (Nat.iter (n + k) round w) < count (Nat.iter k round w).

(** The loop is left, with fuel to spare, after a search that reports zero. *)
Definition leaves (w : world I) : Prop :=
  exists fuel w',
    delete_all_documents fuel w = (w', Some deleted_all) /\ count w' = 0.

End Rounds.

(** ** The rest of the module *)

(** The module state after start-up: the first token of the credential, and
    its text as API key. *)
Definition startup (t : AccessToken) : globals :=
  {| openai_token := t; openai_api_key := token t |}.

(** The API key in force is the text of the stored token. *)
Definition key_matches (g : globals) : Prop :=
  openai_api_key g = token (openai_token g).

(** The distinct elements of a list, each at the place where it first occurs. *)
Fixpoint first_seen (l : list string) : list string :=
  match l with
  | [] => []
  | k :: l' => k :: List.filter (fun x => negb (String.eqb x k)) (first_seen l')
  end.

(** The first and the last character of a string, if any. *)
Definition first_char (s : string) : option ascii := String.get 0 s.
Definition last_char (s : string) : option ascii :=
  String.get (String.length s - 1) s.

Section SectionRounds.

Context {I : Type} `{SearchService I}.

(** The number of hits that the search of [delete_document] gets. *)
Definition section_hits (filter : string) (w : world I) : nat :=
  length (hits (search "*" (Some filter) 1000 (index w))).

(** A turn of the search loop of [delete_document] that goes on to the next. *)
Definition section_round (filter : string) (w : world I) : world I :=
  let documents :=
    id_documents (hits (search "*" (Some filter) 1000 (index w))) in
  World (storage w)
    (sleep 2 (delete_documents documents (index w)))
    (trace w ++ [EvSearch "*" (Some filter) 1000; EvDeleteDocuments documents;
                 EvSleep 2]).

(** The deletions take effect in the end: from each state that the turns
    reach with hits left, some further turns bring fewer hits. *)
Definition sections_reduce (filter : string) (w : world I) : Prop :=
  forall k, section_hits filter (Nat.iter k (section_round filter) w) <> 0 ->
    exists n, section_hits filter (Nat.iter (n + k) (section_round filter) w)
              < section_hits filter (Nat.iter k (section_round filter) w).

(** The search loop is left with fuel to spare. *)
Definition sections_done (filter : string) (w : world I) : Prop :=
  exists fuel w', delete_sections fuel filter w = (w', Some ()).

End SectionRounds.

(** * Properties *)

(** ** Strings *)

Example rfind_samples :
  rfind "a-b-c.pdf" "-" = 3%Z /\ rfind "abc" "-" = (-1)%Z /\ rfind "" "-" = (-1)%Z
  /\ rfind "abc" "" = 3%Z /\ rfind "a--b" "--" = 1%Z.
Proof. repeat split; reflexivity. Qed.

Example slice_to_samples :
  slice_to "abc" (-1) = "ab" /\ slice_to "" (-1) = "" /\ slice_to "abc" 10 = "abc"
  /\ slice_to "abc" (-7) = "" /\ slice_to "abc" 2 = "ab".
Proof. repeat split; reflexivity. Qed.

Example strip_samples :
  strip "  a b  " = "a b" /\ strip (String "009" "x" +:+ String "010" "") = "x"
  /\ strip "   " = "" /\ strip "x" = "x".
Proof. repeat split; reflexivity. Qed.

Example base_name_samples :
  base_name "my report -12.pdf" = "my report" /\ base_name "a-b-0.pdf" = "a-b"
  /\ base_name "notes.txt" = "notes.tx" /\ base_name "-0.pdf" = "".
Proof. repeat split; reflexivity. Qed.

Example int_samples : int (7 # 2) = 3%Z /\ int (-7 # 2) = (-3)%Z.
Proof. split; reflexivity. Qed.


Lemma length_string_of_list_ascii (l : list ascii) :
  String.length (String.string_of_list_ascii l) = length l.
Proof. induction l as [|c l IH]; simpl; congruence. Qed.





















(** ** Dicts kept in insertion order *)

Lemma assoc_setitem_eq {V} (k : string) (v : V) (d : list (string * V)) :
  assoc k (setitem k v d) = Some v.
Proof.
  induction d as [|[k' x] d IH]; cbn [setitem assoc].
  - by rewrite String.eqb_refl.
  - destruct (String.eqb_spec k' k) as [->|Hne]; cbn [assoc].
    + by rewrite String.eqb_refl.
    + by destruct (String.eqb_spec k' k).
Qed.

Lemma assoc_setitem_ne {V} (k k' : string) (v : V) (d : list (string * V)) :
  k <> k' -> assoc k' (setitem k v d) = assoc k' d.
Proof.
  intros Hne. induction d as [|[k0 x] d IH]; cbn [setitem assoc].
  - by destruct (String.eqb_spec k k').
  - destruct (String.eqb_spec k0 k) as [->|Hne0]; cbn [assoc].
    + by destruct (String.eqb_spec k k').
    + by rewrite IH.
Qed.

Lemma assoc_None {V} (k : string) (d : list (string * V)) :
  assoc k d = None <-> k ∉ d.*1.
Proof.
  induction d as [|[k' x] d IH]; cbn [assoc fmap list_fmap fst].
  - split; [intros _; apply not_elem_of_nil|done].
  - rewrite not_elem_of_cons.
    destruct (String.eqb_spec k' k) as [->|Hne].
    + split; [done|]. by intros [? _].
    + rewrite IH. split; [by intros ?; split|by intros [_ ?]].
Qed.

Lemma assoc_Some_elem_of {V} (k : string) (v : V) (d : list (string * V)) :
  assoc k d = Some v -> (k, v) ∈ d.
Proof.
  induction d as [|[k' x] d IH]; cbn [assoc]; [done|].
  destruct (String.eqb_spec k' k) as [->|Hne].
  - intros [= ->]. apply list_elem_of_here.
  - intros Hk. apply list_elem_of_further. auto.
Qed.


Lemma setitem_keys {V} (k : string) (v : V) (d : list (string * V)) :
  (setitem k v d).*1 = if assoc k d is Some _ then d.*1 else d.*1 ++ [k].
Proof.
  induction d as [|[k' x] d IH]; cbn [setitem assoc]; [done|].
  destruct (String.eqb_spec k' k) as [->|Hne]; [done|].
  cbn [fmap list_fmap fst] in *. rewrite IH. by destruct (assoc k d).
Qed.

Lemma setitem_NoDup {V} (k : string) (v : V) (d : list (string * V)) :
  NoDup d.*1 -> NoDup (setitem k v d).*1.
Proof.
  intros Hnd. rewrite setitem_keys.
  destruct (assoc k d) eqn:Hk; [done|].
  apply NoDup_app. split; [done|]. split; [|apply NoDup_singleton].
  intros x Hx ->%list_elem_of_singleton. by apply assoc_None in Hk.
Qed.

(** ** get_document_names *)

Lemma retained_snoc_old (blobs : list BlobProperties) k i b b0 :
  retained blobs k i b ->
  (base_name (name b0) = k -> (last_modified b < last_modified b0)%Z) ->
  retained (blobs ++ [b0]) k i b.
Proof.
  intros (Hi & Hk & Hmin) Hnew. split; [|split; [done|]].
  - by apply lookup_app_l_Some.
  - intros j b' Hj Hk'.
    apply lookup_snoc_Some in Hj as [[Hlt Hj]|[-> ->]]; [by eauto|].
    specialize (Hnew Hk'). lia.
Qed.

Lemma retained_snoc_new (blobs : list BlobProperties) k b0 :
  base_name (name b0) = k ->
  (forall j b', blobs !! j = Some b' -> base_name (name b') = k ->
     (last_modified b0 <= last_modified b')%Z) ->
  retained (blobs ++ [b0]) k (length blobs) b0.
Proof.
  intros Hk Hmin. split; [|split; [done|]].
  - apply list_lookup_middle. done.
  - intros j b' Hj Hk'.
    apply lookup_snoc_Some in Hj as [[Hlt Hj]|[-> ->]].
    + split; [by eauto|lia].
    + lia.
Qed.

Lemma filed_nil : filed [] [].
Proof.
  split; [apply NoDup_nil_2|].
  intros k b Hb. by apply elem_of_nil in Hb.
Qed.

Lemma filed_other (blobs : list BlobProperties) d b0 k :
  filed blobs d -> base_name (name b0) <> k ->
  match assoc k d with
  | Some v => exists i b, retained (blobs ++ [b0]) k i b /\ v = (last_modified b, etag b)
  | None => forall b, b ∈ blobs ++ [b0] -> base_name (name b) <> k
  end.
Proof.
  intros [_ Hd] Hne. specialize (Hd k). destruct (assoc k d) as [v'|].
  - destruct Hd as (i & b & Hret & ->). exists i, b. split; [|done].
    apply retained_snoc_old; [done|]. by intros ?.
  - intros b [Hb| ->%list_elem_of_singleton]%elem_of_app; [by apply Hd|done].
Qed.

Lemma get_document_names_step_filed (blobs : list BlobProperties) d b0 :
  filed blobs d -> filed (blobs ++ [b0]) (get_document_names_step d b0).
Proof.
  intros Hd. pose proof Hd as [Hnd Hall].
  unfold get_document_names_step.
  pose proof (Hall (base_name (name b0))) as H0.
  destruct (assoc (base_name (name b0)) d) as [[stored e]|] eqn:Hk0.
  - destruct H0 as (i0 & b1 & Hret0 & [= -> ->]).
    destruct (Z.ltb_spec (last_modified b1) (last_modified b0)) as [Hlt|Hge].
    + split; [done|]. intros k.
      destruct (decide (base_name (name b0) = k)) as [<-|Hne].
      * rewrite Hk0. exists i0, b1. split; [|done].
        by apply retained_snoc_old.
      * by apply filed_other.
    + split; [by apply setitem_NoDup|]. intros k.
      destruct (decide (base_name (name b0) = k)) as [<-|Hne].
      * rewrite assoc_setitem_eq. exists (length blobs), b0. split; [|done].
        apply retained_snoc_new; [done|]. intros j b' Hj Hk'.
        destruct Hret0 as (_ & _ & Hmin). specialize (Hmin j b' Hj Hk'). lia.
      * rewrite assoc_setitem_ne by done.
        by apply filed_other.
  - split; [by apply setitem_NoDup|]. intros k.
    destruct (decide (base_name (name b0) = k)) as [<-|Hne].
    + rewrite assoc_setitem_eq. exists (length blobs), b0. split; [|done].
      apply retained_snoc_new; [done|]. intros j b' Hj Hk'.
      exfalso. eapply H0; [|done]. by eapply list_elem_of_lookup_2.
    + rewrite assoc_setitem_ne by done.
      by apply filed_other.
Qed.

Lemma fold_get_document_names_step_filed (blobs : list BlobProperties) :
  filed blobs (fold_left get_document_names_step blobs []).
Proof.
  induction blobs as [|b0 blobs IH] using rev_ind; [apply filed_nil|].
  rewrite fold_left_app. by apply get_document_names_step_filed.
Qed.

Example get_document_names_sample :
  get_document_names ∅
    {[ "content" :=
         [ {| name := "plan-0.pdf"; last_modified := 30; etag := "e1" |};
           {| name := " plan -1.pdf"; last_modified := 20; etag := "e2" |};
           {| name := "memo"; last_modified := 7; etag := "e3" |};
           {| name := "plan-2.pdf"; last_modified := 20; etag := "e4" |};
           {| name := "plan-3.pdf"; last_modified := 25; etag := "e5" |} ] ]}
  = Ret [("plan", (20%Z, "e4")); ("mem", (7%Z, "e3"))].
Proof. reflexivity. Qed.



(** ** The token manager *)

Lemma ensure_openai_token_refresh (ev : env) (g : globals) (t : AccessToken) :
  (expires_on (openai_token g) < int (time_time ev) - 60)%Z ->
  get_token ev = Ret t ->
  ensure_openai_token ev g
  = ({| openai_token := t; openai_api_key := token t |}, Ret ()).
Proof.
  intros Hlt Ht. unfold ensure_openai_token.
  destruct (Z.ltb_spec (expires_on (openai_token g)) (int (time_time ev) - 60));
    [by rewrite Ht|lia].
Qed.

Lemma ensure_openai_token_keep (ev : env) (g : globals) :
  (int (time_time ev) - 60 <= expires_on (openai_token g))%Z ->
  ensure_openai_token ev g = (g, Ret ()).
Proof.
  intros Hle. unfold ensure_openai_token.
  destruct (Z.ltb_spec (expires_on (openai_token g)) (int (time_time ev) - 60));
    [lia|done].
Qed.

(** C1 (the code departs from the specification). A stored token that expired thirty
    seconds before the call, so one "within 60 seconds of the current time or
    already past", is left in place together with the API key, although the
    credential would hand out a fresh one: the test of [ensure_openai_token]
    asks for an expiry more than sixty seconds in the past. *)
Theorem ensure_openai_token_keeps_expired_token :
  let g := {| openai_token := {| token := "old"; expires_on := 1000 |};
              openai_api_key := "old" |} in
  let ev := {| time_time := 1030 # 1;
               get_token := Ret {| token := "new"; expires_on := 4630 |} |} in
  (expires_on (openai_token g) <= int (time_time ev) + 60)%Z /\
  (expires_on (openai_token g) < int (time_time ev))%Z /\
  ensure_openai_token ev g = (g, Ret ()).
Proof. repeat split; reflexivity || done. Qed.

(** ** The strategy registries *)

Lemma ask_approaches_lookup (rtr rrr rda : Approach) (k : string) :
  ask_approaches rtr rrr rda !! k
  = if decide (k = "rtr") then Some rtr
    else if decide (k = "rrr") then Some rrr
    else if decide (k = "rda") then Some rda
    else None.
Proof.
  unfold ask_approaches.
  repeat case_decide; subst; by simplify_map_eq.
Qed.

Lemma chat_approaches_lookup (chat_rrr : Approach) (k : string) :
  chat_approaches chat_rrr !! k
  = if decide (k = "rrr") then Some chat_rrr else None.
Proof.
  unfold chat_approaches. case_decide; subst; by simplify_map_eq.
Qed.

Lemma ask_after_token (rtr rrr rda : Approach) (request_json : json)
    (ev : env) (g : globals) (approach : json) :
  snd (ensure_openai_token ev g) = Ret () ->
  getitem request_json "approach" = Ret approach ->
  ask rtr rrr rda request_json ev g
  = (fst (ensure_openai_token ev g),
     try_except
       (ask_try rtr rrr rda approach request_json (fst (ensure_openai_token ev g)))
       (fun e => Ret (error_500 e))).
Proof.
  intros Htok Happ. unfold ask.
  destruct (ensure_openai_token ev g) as [g' [[]|e]]; [|done].
  by rewrite Happ.
Qed.

Lemma chat_after_token (chat_rrr : Approach) (request_json : json)
    (ev : env) (g : globals) (approach : json) :
  snd (ensure_openai_token ev g) = Ret () ->
  getitem request_json "approach" = Ret approach ->
  chat chat_rrr request_json ev g
  = (fst (ensure_openai_token ev g),
     try_except
       (chat_try chat_rrr approach request_json (fst (ensure_openai_token ev g)))
       (fun e => Ret (error_500 e))).
Proof.
  intros Htok Happ. unfold chat.
  destruct (ensure_openai_token ev g) as [g' [[]|e]]; [|done].
  by rewrite Happ.
Qed.

(** What the [try] statement of [ask] yields once the strategy is found and
    the request holds a question. *)
Lemma ask_try_run (rtr rrr rda impl : Approach) (d : list (string * json))
    (g : globals) (a : string) (question : json) :
  ask_approaches rtr rrr rda !! a = Some impl ->
  assoc "question" d = Some question ->
  ask_try rtr rrr rda (JStr a) (JDict d) g
  = r ← run impl g question (py_or (default JNull (assoc "overrides" d)) (JDict []));
    Ret (jsonify r).
Proof.
  intros Himpl Hq. unfold ask_try. cbn [dict_get mbind outcome_bind].
  rewrite Himpl. cbn [getitem get]. by rewrite Hq.
Qed.

Lemma chat_try_run (chat_rrr impl : Approach) (d : list (string * json))
    (g : globals) (a : string) (history : json) :
  chat_approaches chat_rrr !! a = Some impl ->
  assoc "history" d = Some history ->
  chat_try chat_rrr (JStr a) (JDict d) g
  = r ← run impl g history (py_or (default JNull (assoc "overrides" d)) (JDict []));
    Ret (jsonify r).
Proof.
  intros Himpl Hq. unfold chat_try. cbn [dict_get mbind outcome_bind].
  rewrite Himpl. cbn [getitem get]. by rewrite Hq.
Qed.

(** ** /ask and /chat *)

(** C4. Once the token check has returned, [ask] looks the approach name up in
    a registry that holds exactly "rtr", "rrr" and "rda": a request that names
    one of them (and carries a question) is answered by the [run] of the object
    registered under that name, and a request that names anything else gets
    status 400 with the body [{"error": "unknown approach"}]. *)
Theorem ask_resolves_approach (rtr rrr rda : Approach)
    (d : list (string * json)) (ev : env) (g : globals) (a : string) :
  snd (ensure_openai_token ev g) = Ret () ->
  assoc "approach" d = Some (JStr a) ->
  let g' := fst (ensure_openai_token ev g) in
  (forall k, is_Some (ask_approaches rtr rrr rda !! k)
             <-> k = "rtr" \/ k = "rrr" \/ k = "rda") /\
  ask_approaches rtr rrr rda !! "rtr" = Some rtr /\
  ask_approaches rtr rrr rda !! "rrr" = Some rrr /\
  ask_approaches rtr rrr rda !! "rda" = Some rda /\
  (forall impl question,
     ask_approaches rtr rrr rda !! a = Some impl ->
     assoc "question" d = Some question ->
     ask rtr rrr rda (JDict d) ev g
     = (g', Ret match run impl g' question
                        (py_or (default JNull (assoc "overrides" d)) (JDict []))
                with
                | Ret r => jsonify r
                | Raise e => error_500 e
                end)) /\
  (a <> "rtr" -> a <> "rrr" -> a <> "rda" ->
   ask rtr rrr rda (JDict d) ev g
   = (g', Ret (Response (JsonBody (JDict [("error", JStr "unknown approach")])) 400))).
Proof.
  intros Htok Happ g'.
  assert (Hget : getitem (JDict d) "approach" = Ret (JStr a))
    by (cbn [getitem]; by rewrite Happ).
  split; [|split; [|split; [|split; [|split]]]].
  - intros k. rewrite ask_approaches_lookup.
    repeat case_decide; subst; split;
      try (intros [? [=]]); try (intros [?|[?|?]]); try done; eauto.
  - by rewrite ask_approaches_lookup.
  - by rewrite ask_approaches_lookup.
  - by rewrite ask_approaches_lookup.
  - intros impl question Himpl Hq.
    rewrite (ask_after_token _ _ _ _ _ _ _ Htok Hget).
    rewrite (ask_try_run _ _ _ _ _ _ _ _ Himpl Hq).
    fold g'. by destruct (run impl g' question _).
  - intros H1 H2 H3.
    rewrite (ask_after_token _ _ _ _ _ _ _ Htok Hget).
    unfold ask_try. cbn [dict_get mbind outcome_bind].
    rewrite ask_approaches_lookup.
    by rewrite !decide_False by done.
Qed.

Lemma ask_resolves_approach_witness :
  let g := {| openai_token := {| token := "tok"; expires_on := 5000 |};
              openai_api_key := "tok" |} in
  let ev := {| time_time := 1000 # 1;
               get_token := Ret {| token := "new"; expires_on := 4600 |} |} in
  let d := [("approach", JStr "rda"); ("question", JStr "why")] in
  snd (ensure_openai_token ev g) = Ret () /\
  assoc "approach" d = Some (JStr "rda") /\
  ask (failing (Exn "E" "1")) (failing (Exn "E" "2")) echo (JDict d) ev g
  = (g, Ret (jsonify (JDict [("question", JStr "why"); ("overrides", JDict [])]))).
Proof.
  intros g ev d.
  assert (Htok : snd (ensure_openai_token ev g) = Ret ()) by reflexivity.
  assert (Happ : assoc "approach" d = Some (JStr "rda")) by reflexivity.
  split; [exact Htok|]. split; [exact Happ|].
  destruct (ask_resolves_approach (failing (Exn "E" "1")) (failing (Exn "E" "2"))
              echo d ev g "rda" Htok Happ) as (_ & _ & _ & Hrda & Hrun & _).
  exact (Hrun echo (JStr "why") Hrda eq_refl).
Defined.

(** C8. Once the token check has returned, [chat] resolves the approach name
    "rrr" only: a request that names it (and carries a history) is answered by
    the [run] of the chat strategy, and any other name, "rtr" and "rda"
    included, gets status 400 with the body [{"error": "unknown approach"}]. *)
Theorem chat_resolves_rrr_only (chat_rrr : Approach)
    (d : list (string * json)) (ev : env) (g : globals) (a : string) :
  snd (ensure_openai_token ev g) = Ret () ->
  assoc "approach" d = Some (JStr a) ->
  let g' := fst (ensure_openai_token ev g) in
  (forall k, is_Some (chat_approaches chat_rrr !! k) <-> k = "rrr") /\
  chat_approaches chat_rrr !! "rrr" = Some chat_rrr /\
  (a = "rrr" -> forall history,
     assoc "history" d = Some history ->
     chat chat_rrr (JDict d) ev g
     = (g', Ret match run chat_rrr g' history
                        (py_or (default JNull (assoc "overrides" d)) (JDict []))
                with
                | Ret r => jsonify r
                | Raise e => error_500 e
                end)) /\
  (a <> "rrr" ->
   chat chat_rrr (JDict d) ev g
   = (g', Ret (Response (JsonBody (JDict [("error", JStr "unknown approach")])) 400))) /\
  (a = "rtr" \/ a = "rda" ->
   chat chat_rrr (JDict d) ev g
   = (g', Ret (Response (JsonBody (JDict [("error", JStr "unknown approach")])) 400))).
Proof.
  intros Htok Happ g'.
  assert (Hget : getitem (JDict d) "approach" = Ret (JStr a))
    by (cbn [getitem]; by rewrite Happ).
  assert (Hother : a <> "rrr" ->
    chat chat_rrr (JDict d) ev g
    = (g', Ret (Response (JsonBody (JDict [("error", JStr "unknown approach")])) 400))).
  { intros Hne. rewrite (chat_after_token _ _ _ _ _ Htok Hget).
    unfold chat_try. cbn [dict_get mbind outcome_bind].
    rewrite chat_approaches_lookup. by rewrite decide_False by done. }
  split; [|split; [|split; [|split]]].
  - intros k. rewrite chat_approaches_lookup.
    case_decide; subst; split; try (intros [? [=]]); try done; eauto.
  - by rewrite chat_approaches_lookup.
  - intros -> history Hh.
    rewrite (chat_after_token _ _ _ _ _ Htok Hget).
    assert (Hrrr : chat_approaches chat_rrr !! "rrr" = Some chat_rrr)
      by by rewrite chat_approaches_lookup.
    rewrite (chat_try_run _ chat_rrr _ _ _ _ Hrrr Hh).
    fold g'. by destruct (run chat_rrr g' history _).
  - exact Hother.
  - intros [->| ->]; by apply Hother.
Qed.

Lemma chat_resolves_rrr_only_witness :
  let g := {| openai_token := {| token := "tok"; expires_on := 5000 |};
              openai_api_key := "tok" |} in
  let ev := {| time_time := 1000 # 1;
               get_token := Ret {| token := "new"; expires_on := 4600 |} |} in
  let d := [("approach", JStr "rtr"); ("history", JList [])] in
  snd (ensure_openai_token ev g) = Ret () /\
  assoc "approach" d = Some (JStr "rtr") /\
  chat echo (JDict d) ev g
  = (g, Ret (Response (JsonBody (JDict [("error", JStr "unknown approach")])) 400)).
Proof.
  intros g ev d.
  assert (Htok : snd (ensure_openai_token ev g) = Ret ()) by reflexivity.
  assert (Happ : assoc "approach" d = Some (JStr "rtr")) by reflexivity.
  split; [exact Htok|]. split; [exact Happ|].
  destruct (chat_resolves_rrr_only echo d ev g "rtr" Htok Happ)
    as (_ & _ & _ & _ & Hnamed).
  exact (Hnamed (or_introl eq_refl)).
Defined.

(** A list or a dict under "approach" is not a name: it cannot be a key, the
    lookup raises inside the [try] statement, and the answer is status 500. *)
Example ask_unhashable_approach :
  let g := {| openai_token := {| token := "tok"; expires_on := 5000 |};
              openai_api_key := "tok" |} in
  let ev := {| time_time := 1000 # 1;
               get_token := Ret {| token := "new"; expires_on := 4600 |} |} in
  ask echo echo echo
    (JDict [("approach", JList [JStr "rtr"]); ("question", JStr "q")]) ev g
  = (g, Ret (Response
               (JsonBody (JDict [("error", JStr "unhashable type: 'list'")])) 500)).
Proof. reflexivity. Qed.

(** C6 as stated fails: with ["overrides": false] in the request the strategy
    is run with an empty dict, not with the value of the request, so the body
    is not what [run] returns on the overrides the specification describes. *)
Lemma ask_falsy_overrides_counterexample :
  let g := {| openai_token := {| token := "tok"; expires_on := 5000 |};
              openai_api_key := "tok" |} in
  let ev := {| time_time := 1000 # 1;
               get_token := Ret {| token := "new"; expires_on := 4600 |} |} in
  let d := [("approach", JStr "rtr"); ("question", JStr "q");
            ("overrides", JBool false)] in
  ask_approaches echo echo echo !! "rtr" = Some echo /\
  stated_overrides d = JBool false /\
  run echo g (JStr "q") (stated_overrides d)
  = Ret (JDict [("question", JStr "q"); ("overrides", JBool false)]) /\
  ask echo echo echo (JDict d) ev g
  = (g, Ret (jsonify (JDict [("question", JStr "q"); ("overrides", JDict [])]))) /\
  snd (ask echo echo echo (JDict d) ev g)
  <> (r ← run echo g (JStr "q") (stated_overrides d); Ret (jsonify r)).
Proof. repeat split; reflexivity || discriminate. Qed.

(** C6 (amended). For a request to [ask] that names a registered strategy:
    once the token check has returned and [run] returns [r], the response is
    [r] as a JSON body with status 200, nothing added, removed or changed;
    [run] is called with the question and with the "overrides" of the request
    when that value is true in a condition, and with an empty dict when it is
    absent, null or false in any other way (false, 0, "", [], {}). *)
Theorem ask_returns_run_result (rtr rrr rda impl : Approach)
    (d : list (string * json)) (ev : env) (g : globals) (a : string)
    (question r : json) :
  snd (ensure_openai_token ev g) = Ret () ->
  assoc "approach" d = Some (JStr a) ->
  ask_approaches rtr rrr rda !! a = Some impl ->
  assoc "question" d = Some question ->
  let g' := fst (ensure_openai_token ev g) in
  let overrides :=
    match assoc "overrides" d with
    | Some v => if truthy v then v else JDict []
    | None => JDict []
    end in
  run impl g' question overrides = Ret r ->
  ask rtr rrr rda (JDict d) ev g = (g', Ret (Response (JsonBody r) 200)).
Proof.
  intros Htok Happ Himpl Hq g' overrides Hrun.
  assert (Hget : getitem (JDict d) "approach" = Ret (JStr a))
    by (cbn [getitem]; by rewrite Happ).
  rewrite (ask_after_token _ _ _ _ _ _ _ Htok Hget).
  rewrite (ask_try_run _ _ _ _ _ _ _ _ Himpl Hq). fold g'.
  replace (py_or (default JNull (assoc "overrides" d)) (JDict [])) with overrides.
  - by rewrite Hrun.
  - unfold overrides, py_or. by destruct (assoc "overrides" d).
Qed.

Lemma ask_returns_run_result_witness :
  let g := {| openai_token := {| token := "tok"; expires_on := 5000 |};
              openai_api_key := "tok" |} in
  let ev := {| time_time := 1000 # 1;
               get_token := Ret {| token := "new"; expires_on := 4600 |} |} in
  let d := [("approach", JStr "rtr"); ("question", JStr "q");
            ("overrides", JDict [("top", JInt 3)])] in
  let r := JDict [("question", JStr "q");
                  ("overrides", JDict [("top", JInt 3)])] in
  snd (ensure_openai_token ev g) = Ret () /\
  assoc "approach" d = Some (JStr "rtr") /\
  ask_approaches echo echo echo !! "rtr" = Some echo /\
  assoc "question" d = Some (JStr "q") /\
  run echo g (JStr "q") (JDict [("top", JInt 3)]) = Ret r /\
  ask echo echo echo (JDict d) ev g = (g, Ret (Response (JsonBody r) 200)).
Proof.
  intros g ev d r.
  assert (Htok : snd (ensure_openai_token ev g) = Ret ()) by reflexivity.
  assert (Happ : assoc "approach" d = Some (JStr "rtr")) by reflexivity.
  assert (Himpl : ask_approaches echo echo echo !! "rtr" = Some echo)
    by reflexivity.
  assert (Hq : assoc "question" d = Some (JStr "q")) by reflexivity.
  assert (Hrun : run echo g (JStr "q") (JDict [("top", JInt 3)]) = Ret r)
    by reflexivity.
  repeat (split; [assumption|]).
  exact (ask_returns_run_result echo echo echo echo d ev g "rtr" (JStr "q") r
           Htok Happ Himpl Hq Hrun).
Defined.

(** C2 as stated fails: a request without "approach" makes both handlers raise
    [KeyError], and an exception of the credential during the token refresh
    leaves [ask] as it was raised; neither becomes a response with status
    500. *)
Lemma ask_chat_uncaught_counterexample :
  let g := {| openai_token := {| token := "tok"; expires_on := 5000 |};
              openai_api_key := "tok" |} in
  let ev := {| time_time := 1000 # 1;
               get_token := Ret {| token := "new"; expires_on := 4600 |} |} in
  let late := {| time_time := 9000 # 1;
                 get_token := Raise (Exn "ClientAuthenticationError" "no token") |} in
  ask echo echo echo (JDict [("question", JStr "q")]) ev g
  = (g, Raise (KeyError "approach")) /\
  chat echo (JDict [("history", JList [])]) ev g
  = (g, Raise (KeyError "approach")) /\
  ask echo echo echo (JDict [("approach", JStr "rtr"); ("question", JStr "q")]) late g
  = (g, Raise (Exn "ClientAuthenticationError" "no token")).
Proof. repeat split; reflexivity. Qed.

(** C2 (amended). In [ask] and [chat] the token refresh and the reading of
    "approach" come before the [try] statement, and what they raise leaves the
    handler as it was raised. Past these two steps the handler always returns a
    response, and every exception raised inside the [try] statement (by the
    lookup, by the reading of the question or history and of the overrides, by
    [run]) becomes status 500 with the body [{"error": str(e)}]. *)
Theorem ask_chat_exceptions (rtr rrr rda chat_rrr : Approach)
    (request_json : json) (ev : env) (g : globals) :
  let g' := fst (ensure_openai_token ev g) in
  (forall e, snd (ensure_openai_token ev g) = Raise e ->
     ask rtr rrr rda request_json ev g = (g', Raise e) /\
     chat chat_rrr request_json ev g = (g', Raise e)) /\
  (forall e, snd (ensure_openai_token ev g) = Ret () ->
     getitem request_json "approach" = Raise e ->
     ask rtr rrr rda request_json ev g = (g', Raise e) /\
     chat chat_rrr request_json ev g = (g', Raise e)) /\
  (forall approach, snd (ensure_openai_token ev g) = Ret () ->
     getitem request_json "approach" = Ret approach ->
     (exists resp,
        ask rtr rrr rda request_json ev g = (g', Ret resp) /\
        forall e, ask_try rtr rrr rda approach request_json g' = Raise e ->
          resp = Response (JsonBody (JDict [("error", JStr (exn_str e))])) 500) /\
     (exists resp,
        chat chat_rrr request_json ev g = (g', Ret resp) /\
        forall e, chat_try chat_rrr approach request_json g' = Raise e ->
          resp = Response (JsonBody (JDict [("error", JStr (exn_str e))])) 500)).
Proof.
  intros g'. split; [|split].
  - intros e He. unfold ask, chat, g'.
    destruct (ensure_openai_token ev g) as [g1 [[]|e1]]; [done|].
    cbn in He. by injection He as ->.
  - intros e Htok He. unfold ask, chat, g'.
    destruct (ensure_openai_token ev g) as [g1 [[]|e1]]; [|done].
    by rewrite He.
  - intros approach Htok Happ.
    rewrite (ask_after_token _ _ _ _ _ _ _ Htok Happ).
    rewrite (chat_after_token _ _ _ _ _ Htok Happ). fold g'. split.
    + destruct (ask_try rtr rrr rda approach request_json g') as [resp|e0].
      * exists resp. by split.
      * exists (error_500 e0). split; [done|]. by intros e [= ->].
    + destruct (chat_try chat_rrr approach request_json g') as [resp|e0].
      * exists resp. by split.
      * exists (error_500 e0). split; [done|]. by intros e [= ->].
Qed.

Lemma ask_chat_exceptions_witness :
  let g := {| openai_token := {| token := "tok"; expires_on := 5000 |};
              openai_api_key := "tok" |} in
  let ev := {| time_time := 1000 # 1;
               get_token := Ret {| token := "new"; expires_on := 4600 |} |} in
  let boom := Exn "RuntimeError" "boom" in
  let request_json := JDict [("approach", JStr "rrr"); ("question", JStr "q");
                             ("history", JList [])] in
  snd (ensure_openai_token ev g) = Ret () /\
  getitem request_json "approach" = Ret (JStr "rrr") /\
  ask_try echo (failing boom) echo (JStr "rrr") request_json g = Raise boom /\
  exists resp,
    ask echo (failing boom) echo request_json ev g = (g, Ret resp) /\
    resp = Response (JsonBody (JDict [("error", JStr "boom")])) 500.
Proof.
  intros g ev boom request_json.
  assert (Htok : snd (ensure_openai_token ev g) = Ret ()) by reflexivity.
  assert (Happ : getitem request_json "approach" = Ret (JStr "rrr"))
    by reflexivity.
  assert (Htry : ask_try echo (failing boom) echo (JStr "rrr") request_json g
                 = Raise boom) by reflexivity.
  repeat (split; [assumption|]).
  destruct (ask_chat_exceptions echo (failing boom) echo echo request_json ev g)
    as (_ & _ & Hin).
  destruct (Hin (JStr "rrr") Htok Happ) as [(resp & Hask & Hresp) _].
  exists resp. split; [exact Hask|]. exact (Hresp boom Htry).
Defined.

(** ** /delete_all_documents *)

Section DeleteAll.

Context {I : Type} `{SearchService I}.

Lemma delete_all_documents_S (fuel : nat) (w : world I) :
  delete_all_documents (S fuel) w
  = if Nat.eqb (count w) 0
    then (log (EvSearch "*" None 1000) w, Some deleted_all)
    else delete_all_documents fuel (round w).
Proof.
  cbn [delete_all_documents]. unfold count.
  destruct (Nat.eqb _ 0); [done|].
  f_equal. unfold round, log. cbn [storage index trace].
  by rewrite <- !app_assoc.
Qed.

Lemma iter_round_succ (n : nat) (w : world I) :
  Nat.iter (S n) round w = Nat.iter n round (round w).
Proof. apply Nat.iter_succ_r. Qed.

Lemma eventually_reduces_round (w : world I) :
  eventually_reduces w -> eventually_reduces (round w).
Proof.
  intros Hw k. rewrite <- iter_round_succ. intros Hk.
  destruct (Hw (S k) Hk) as [n Hn]. exists n.
  by rewrite <- iter_round_succ, <- Nat.add_succ_r.
Qed.

Lemma eventually_reduces_iter (n : nat) (w : world I) :
  eventually_reduces w -> eventually_reduces (Nat.iter n round w).
Proof.
  intros Hw. induction n as [|n IH]; [done|].
  cbn [Nat.iter]. by apply eventually_reduces_round.
Qed.

Lemma leaves_zero (w : world I) : count w = 0 -> leaves w.
Proof.
  intros Hw. exists 1, (log (EvSearch "*" None 1000) w).
  rewrite delete_all_documents_S, Hw. done.
Qed.

Lemma leaves_round (w : world I) : leaves (round w) -> leaves w.
Proof.
  intros (fuel & w' & Hrun & Hw').
  destruct (count w) as [|c] eqn:Hw; [by apply leaves_zero|].
  exists (S fuel), w'. by rewrite delete_all_documents_S, Hw.
Qed.

Lemma leaves_iter (n : nat) (w : world I) :
  leaves (Nat.iter n round w) -> leaves w.
Proof.
  revert w. induction n as [|n IH]; intros w; [done|].
  rewrite iter_round_succ. intros Hn. by apply leaves_round, IH.
Qed.

Lemma eventually_reduces_leaves (w : world I) :
  eventually_reduces w -> leaves w.
Proof.
  remember (count w) as c eqn:Hc. revert w Hc.
  induction c as [c IH] using lt_wf_ind. intros w -> Hw.
  destruct (decide (count w = 0)) as [Hz|Hnz]; [by apply leaves_zero|].
  destruct (Hw 0 Hnz) as [n Hn]. rewrite Nat.add_0_r in Hn. cbn [Nat.iter] in Hn.
  apply (leaves_iter n).
  by apply (IH _ Hn); [|apply eventually_reduces_iter].
Qed.

Lemma delete_all_documents_rounds (fuel : nat) (w w' : world I) (resp : response) :
  delete_all_documents fuel w = (w', Some resp) ->
  resp = deleted_all /\
  exists n, n < fuel /\
    (forall k, k < n -> count (Nat.iter k round w) <> 0) /\
    count (Nat.iter n round w) = 0 /\
    w' = log (EvSearch "*" None 1000) (Nat.iter n round w).
Proof.
  revert w. induction fuel as [|fuel IH]; intros w; [done|].
  rewrite delete_all_documents_S.
  destruct (Nat.eqb_spec (count w) 0) as [Hz|Hnz].
  - intros [= <- <-]. split; [done|]. exists 0.
    split; [lia|]. split; [intros k ?; lia|]. done.
  - intros [-> (n & Hn & Hbefore & Hzero & ->)]%IH. split; [done|].
    exists (S n). rewrite iter_round_succ.
    split; [lia|]. split; [|done].
    intros [|k] Hk; [done|]. rewrite iter_round_succ. apply Hbefore. lia.
Qed.

End DeleteAll.

(** C7. [delete_all_documents] searches for up to 1000 documents and deletes
    what the search returned, by id, again and again; it returns "Deleted all
    documents" only after a search that reports a total of zero; and when
    every delete batch eventually reduces the reported count, the loop is left
    and the last count observed is zero. *)
Theorem delete_all_documents_terminates {I : Type} `{SearchService I}
    (w : world I) :
  (forall fuel w' resp,
     delete_all_documents fuel w = (w', Some resp) ->
     resp = Response (TextBody "Deleted all documents") 200 /\
     exists n,
       (forall k, k < n -> count (Nat.iter k round w) <> 0) /\
       count (Nat.iter n round w) = 0 /\
       w' = log (EvSearch "*" None 1000) (Nat.iter n round w)) /\
  (eventually_reduces w ->
   exists fuel w',
     delete_all_documents fuel w
     = (w', Some (Response (TextBody "Deleted all documents") 200)) /\
     count w' = 0).
Proof.
  split.
  - intros fuel w' resp Hrun.
    destruct (delete_all_documents_rounds fuel w w' resp Hrun)
      as (-> & n & _ & Hbefore & Hzero & ->).
    split; [done|]. by exists n.
  - apply eventually_reduces_leaves.
Qed.

Lemma prompt_index_round_nil (w : world (list document)) :
  index w = [] -> index (round w) = [].
Proof. intros Hw. unfold round. cbn [index]. by rewrite Hw. Qed.

Lemma prompt_index_iter_nil (k : nat) (w : world (list document)) :
  index (round w) = [] -> index (Nat.iter (S k) round w) = [].
Proof.
  intros Hw. induction k as [|k IH]; [done|].
  change (Nat.iter (S (S k)) round w) with (round (Nat.iter (S k) round w)).
  by apply prompt_index_round_nil.
Qed.

Lemma delete_all_documents_terminates_witness :
  let w := World ∅
             [ {| doc_id := "a-0"; doc_fields := [("sourcefile", JStr "a.pdf")] |};
               {| doc_id := "b-0"; doc_fields := [("sourcefile", JStr "b.pdf")] |} ]
             [] in
  eventually_reduces w /\
  exists fuel w',
    delete_all_documents fuel w
    = (w', Some (Response (TextBody "Deleted all documents") 200)) /\
    count w' = 0.
Proof.
  intros w.
  assert (Hw : eventually_reduces w).
  { intros [|k].
    - intros _. exists 1. vm_compute. lia.
    - intros Hk. exfalso. apply Hk. unfold count.
      by rewrite (prompt_index_iter_nil k w eq_refl). }
  split; [exact Hw|].
  destruct (delete_all_documents_terminates w) as [_ Hleave].
  exact (Hleave Hw).
Defined.

Example delete_all_documents_sample :
  delete_all_documents 2
    (World ∅
       [ {| doc_id := "a-0"; doc_fields := [] |};
         {| doc_id := "b-0"; doc_fields := [] |} ] [])
  = (World ∅ []
       [ EvSearch "*" None 1000;
         EvDeleteDocuments [JDict [("id", JStr "a-0")]; JDict [("id", JStr "b-0")]];
         EvSleep 2;
         EvSearch "*" None 1000 ],
     Some (Response (TextBody "Deleted all documents") 200)).
Proof. reflexivity. Qed.

(** ** /delete_document *)

(** C10. A request to [delete_document] whose body is an object without
    "name", or with "name" null or the empty string, gets status 400 with the
    body [{"error": "Missing 'name' parameter"}]; the storage account and the
    search index are as before, and no call to either was made. *)
Theorem delete_document_missing_name (environ : gmap string string)
    (delete_fault : string -> string -> option exn)
    (str_of_value : json -> string) {I : Type} `{SearchService I}
    (fuel : nat) (d : list (string * json)) (w : world I) :
  assoc "name" d = None \/ assoc "name" d = Some JNull
  \/ assoc "name" d = Some (JStr "") ->
  delete_document environ delete_fault str_of_value fuel (JDict d) w
  = (w, Some (Ret (Response
                     (JsonBody (JDict [("error", JStr "Missing 'name' parameter")]))
                     400))).
Proof.
  intros Hname. unfold delete_document. cbn [get].
  by destruct Hname as [->|[->| ->]].
Qed.

Lemma delete_document_missing_name_witness :
  let w := World {[ "content" := [ {| name := "a-0.pdf"; last_modified := 1;
                                      etag := "e" |} ] ]}
             [ {| doc_id := "a-0"; doc_fields := [("sourcefile", JStr "a.pdf")] |} ]
             [] in
  let d := [("name", JStr "")] in
  (assoc "name" d = None \/ assoc "name" d = Some JNull
   \/ assoc "name" d = Some (JStr "")) /\
  delete_document ∅ (fun _ _ => None) (fun _ => "") 0 (JDict d) w
  = (w, Some (Ret (Response
                     (JsonBody (JDict [("error", JStr "Missing 'name' parameter")]))
                     400))).
Proof.
  intros w d.
  assert (Hname : assoc "name" d = None \/ assoc "name" d = Some JNull
                  \/ assoc "name" d = Some (JStr ""))
    by (right; right; reflexivity).
  split; [exact Hname|].
  exact (delete_document_missing_name ∅ (fun _ _ => None) (fun _ => "") 0 d w Hname).
Defined.

Section DeleteBlobs.

Context (delete_fault : string -> string -> option exn) {I : Type}.

(** What one deletion request does: it is logged, it touches no container but
    its own, and in its own it removes nothing but blobs of the given name. *)
Lemma delete_blob_frame (container blob_name : string) (w : world I) :
  let w' := fst (delete_blob delete_fault container blob_name w) in
  index w' = index w /\
  trace w' = trace w ++ [EvDeleteBlob container blob_name] /\
  (forall c, c <> container -> storage w' !! c = storage w !! c) /\
  (forall blobs, storage w !! container = Some blobs ->
     exists blobs', storage w' !! container = Some blobs' /\
       (forall b, b ∈ blobs -> name b <> blob_name -> b ∈ blobs') /\
       (forall b, b ∈ blobs' -> b ∈ blobs)).
Proof.
  cbn zeta. unfold delete_blob, log. cbn [storage index trace].
  destruct (storage w !! container) as [blobs|] eqn:Hc;
    cbn [fst storage index trace]; [|by do 3 (split; [done|])].
  destruct (existsb _ blobs); cbn [fst storage index trace].
  2: { do 3 (split; [done|]). intros ? [= <-]. by exists blobs. }
  destruct (delete_fault container blob_name); cbn [fst storage index trace].
  { do 3 (split; [done|]). intros ? [= <-]. by exists blobs. }
  split; [done|]. split; [done|]. split.
  - intros c Hne. by rewrite lookup_insert_ne.
  - intros ? [= <-]. eexists. split; [apply lookup_insert_eq|]. split.
    + intros b Hb Hne. apply list_elem_of_In, filter_In.
      split; [by apply list_elem_of_In|].
      by destruct (String.eqb_spec (name b) blob_name).
    + intros b Hb%list_elem_of_In%filter_In. apply list_elem_of_In, Hb.
Qed.

(** The loop over the enumerated blobs, for a name that is a [str]: a deletion
    is requested, in the container "content", for each enumerated blob whose
    name starts with the given name and for no other, whatever the fate of
    the requests before; no blob whose name does not start with the given name
    is removed from any container. *)
Lemma delete_blobs_prefix (p : string) (blob_list : list BlobProperties)
    (w : world I) :
  exists w',
    delete_blobs delete_fault (JStr p) blob_list w = (w', Ret ()) /\
    index w' = index w /\
    trace w'
    = trace w
      ++ map (fun b => EvDeleteBlob "content" (name b))
           (List.filter (fun b => String.prefix p (name b)) blob_list) /\
    (forall c, c <> "content" -> storage w' !! c = storage w !! c) /\
    (forall blobs, storage w !! "content" = Some blobs ->
       exists blobs', storage w' !! "content" = Some blobs' /\
         (forall b, b ∈ blobs -> String.prefix p (name b) = false -> b ∈ blobs') /\
         (forall b, b ∈ blobs' -> b ∈ blobs)).
Proof.
  revert w. induction blob_list as [|blob rest IH]; intros w.
  - exists w. cbn [delete_blobs List.filter map].
    rewrite app_nil_r. repeat split; eauto.
  - cbn [delete_blobs startswith List.filter].
    destruct (String.prefix p (name blob)) eqn:Hp; [|apply IH].
    destruct (delete_blob_frame "content" (name blob) w)
      as (Hidx & Htr & Hother & Hcontent).
    destruct (IH (fst (delete_blob delete_fault "content" (name blob) w)))
      as (w' & Hrun & Hidx' & Htr' & Hother' & Hcontent').
    exists w'. split; [done|]. split; [congruence|]. split.
    { rewrite Htr', Htr. cbn [map]. by rewrite <- app_assoc. }
    split.
    { intros c Hc. rewrite Hother' by done. by apply Hother. }
    intros blobs Hblobs.
    destruct (Hcontent blobs Hblobs) as (blobs1 & Hblobs1 & Hkeep1 & Hsub1).
    destruct (Hcontent' blobs1 Hblobs1) as (blobs2 & Hblobs2 & Hkeep2 & Hsub2).
    exists blobs2. split; [done|]. split; [|by eauto].
    intros b Hb Hnp. apply Hkeep2; [|done]. apply Hkeep1; [done|].
    intros Heq. congruence.
Qed.

End DeleteBlobs.

Section DeleteDocument.

Context (environ : gmap string string)
  (delete_fault : string -> string -> option exn)
  (str_of_value : json -> string) {I : Type} `{SearchService I}.

Lemma blob_deletions_app (t1 t2 : list event) :
  blob_deletions (t1 ++ t2) = blob_deletions t1 ++ blob_deletions t2.
Proof. apply flat_map_app. Qed.

Lemma blob_deletions_requests (c : string) (l : list BlobProperties) :
  blob_deletions (map (fun b => EvDeleteBlob c (name b)) l)
  = map (fun b => (c, name b)) l.
Proof. induction l as [|b l IH]; [done|]. cbn. by rewrite <- IH. Qed.

Lemma delete_sections_frame (fuel : nat) (filter : string) (w : world I) :
  storage (fst (delete_sections fuel filter w)) = storage w /\
  blob_deletions (trace (fst (delete_sections fuel filter w)))
  = blob_deletions (trace w).
Proof.
  revert w. induction fuel as [|fuel IH]; intros w; [done|].
  cbn [delete_sections].
  destruct (Nat.eqb _ 0).
  - cbn [fst log storage trace]. split; [done|].
    rewrite blob_deletions_app. cbn. by rewrite app_nil_r.
  - match goal with |- context [delete_sections fuel filter ?w3] =>
      destruct (IH w3) as [-> ->] end.
    cbn [fst log storage trace]. split; [done|].
    rewrite !blob_deletions_app. cbn. by rewrite !app_nil_r.
Qed.

(** What [delete_document] does to the blobs for a name that is a [str] and
    not empty, whatever the fuel and the faults: it requests a deletion, in
    the container "content", for each blob enumerated in the configured
    container whose name starts with the given name, and for no other; it
    removes no blob whose name does not start with the given name. When the
    configured container is "content" these are the blobs C5 speaks of. *)
Lemma delete_document_blob_deletions (fuel : nat) (d : list (string * json))
    (p : string) (blob_list : list BlobProperties) (w : world I) :
  assoc "name" d = Some (JStr p) -> p <> "" ->
  storage w !! AZURE_STORAGE_CONTAINER environ = Some blob_list ->
  let w' := fst (delete_document environ delete_fault str_of_value fuel
                   (JDict d) w) in
  blob_deletions (trace w')
  = blob_deletions (trace w)
    ++ map (fun b => ("content", name b))
         (List.filter (fun b => String.prefix p (name b)) blob_list) /\
  (forall c, c <> "content" -> storage w' !! c = storage w !! c) /\
  (forall blobs, storage w !! "content" = Some blobs ->
     exists blobs', storage w' !! "content" = Some blobs' /\
       (forall b, b ∈ blobs -> String.prefix p (name b) = false -> b ∈ blobs') /\
       (forall b, b ∈ blobs' -> b ∈ blobs)).
Proof.
  intros Hname Hp Hlist. cbn zeta. unfold delete_document. cbn [get].
  rewrite Hname. cbn [default from_option id truthy format].
  destruct (String.eqb_spec p "") as [?|_]; [done|]. cbn [negb].
  unfold list_blobs. cbn [log storage]. rewrite Hlist.
  destruct (delete_blobs_prefix delete_fault p blob_list
              (log (EvListBlobs (AZURE_STORAGE_CONTAINER environ)) w))
    as (w2 & Hrun & _ & Htr & Hother & Hcontent).
  rewrite Hrun.
  match goal with |- context [delete_sections fuel ?f w2] =>
    pose proof (delete_sections_frame fuel f w2) as [Hst Hdel];
    destruct (delete_sections fuel f w2) as [w3 [[]|]] end;
    cbn [fst] in *; rewrite Hst, Hdel, Htr; cbn [log storage trace] in *.
  all: split; [|by split].
  all: rewrite !blob_deletions_app, blob_deletions_requests.
  all: cbn [blob_deletions flat_map app]; by rewrite app_nil_r.
Qed.

End DeleteDocument.

(** C5 (the code departs from the specification). With the application configured for
    the container "docs", a request to delete "report" enumerates the blobs of
    "docs" but sends the deletion to the container "content": the matching blob
    of "docs" stays, no deletion of it is attempted, and a blob of "content"
    that was never enumerated is removed. *)
Theorem delete_document_deletes_in_content :
  let environ : gmap string string := {[ "AZURE_STORAGE_CONTAINER" := "docs" ]} in
  let listed := {| name := "report-0.pdf"; last_modified := 10; etag := "e1" |} in
  let other := {| name := "report-0.pdf"; last_modified := 99; etag := "e2" |} in
  let w := World {[ "docs" := [listed]; "content" := [other] ]}
             ([] : list document) [] in
  AZURE_STORAGE_CONTAINER environ = "docs" /\
  exists w',
    delete_document environ (fun _ _ => None) (fun _ => "") 1
      (JDict [("name", JStr "report")]) w
    = (w', Some (Ret (Response (TextBody "200") 200))) /\
    storage w' !! "docs" = Some [listed] /\
    storage w' !! "content" = Some [] /\
    trace w'
    = [ EvListBlobs "docs";
        EvDeleteBlob "content" "report-0.pdf";
        EvSearch "*" (Some "sourcefile eq 'report.pdf'") 1000 ].
Proof.
  intros environ listed other w. split; [reflexivity|].
  eexists. split; [reflexivity|]. repeat split; reflexivity.
Qed.

(** * Further properties of the handlers *)

(** ** The token check *)

(** [ask] and [chat] write the module state through the token check and
    nowhere else: whatever the request and however the handler ends, the
    state it leaves is the state the check left. *)
Lemma ask_chat_state (rtr rrr rda chat_rrr : Approach) (request_json : json)
    (ev : env) (g : globals) :
  fst (ask rtr rrr rda request_json ev g) = fst (ensure_openai_token ev g) /\
  fst (chat chat_rrr request_json ev g) = fst (ensure_openai_token ev g).
Proof.
  unfold ask, chat.
  destruct (ensure_openai_token ev g) as [g' [[]|e]]; [|done].
  by destruct (getitem request_json "approach").
Qed.

(** X1. From start-up on the API key is the text of the stored token: the
    state built at start-up has the property, and the token check, [ask] and
    [chat] keep it, also when the refresh or the handler raises. *)
Theorem key_matches_kept (rtr rrr rda chat_rrr : Approach) (request_json : json)
    (ev : env) (g : globals) (t0 : AccessToken) :
  key_matches (startup t0) /\
  (key_matches g ->
   key_matches (fst (ensure_openai_token ev g)) /\
   key_matches (fst (ask rtr rrr rda request_json ev g)) /\
   key_matches (fst (chat chat_rrr request_json ev g))).
Proof.
  split; [done|]. intros Hg.
  destruct (ask_chat_state rtr rrr rda chat_rrr request_json ev g) as [-> ->].
  assert (key_matches (fst (ensure_openai_token ev g))); [|done].
  unfold ensure_openai_token.
  destruct (_ <? _)%Z; [|done]. by destruct (get_token ev).
Qed.

Lemma key_matches_kept_witness :
  let g := startup {| token := "old"; expires_on := 1000 |} in
  let ev := {| time_time := 2000 # 1;
               get_token := Ret {| token := "new"; expires_on := 5600 |} |} in
  key_matches g /\
  key_matches (fst (ask echo echo echo (JDict []) ev g)) /\
  openai_api_key (fst (ask echo echo echo (JDict []) ev g)) = "new".
Proof.
  intros g ev.
  assert (Hg : key_matches g) by reflexivity.
  split; [exact Hg|].
  destruct (key_matches_kept echo echo echo echo (JDict []) ev g
              {| token := "old"; expires_on := 1000 |}) as [_ Hkept].
  destruct (Hkept Hg) as (_ & Hask & _).
  split; [exact Hask|reflexivity].
Defined.

(** ** /ask and /chat, the other ways through *)

Lemma ask_try_shapes (rtr rrr rda : Approach) (approach request_json : json)
    (g : globals) (resp : response) :
  ask_try rtr rrr rda approach request_json g = Ret resp ->
  (exists r, resp = Response (JsonBody r) 200) \/
  resp = Response (JsonBody (JDict [("error", JStr "unknown approach")])) 400.
Proof.
  unfold ask_try.
  destruct (dict_get _ approach) as [[impl|]|e]; cbn [mbind outcome_bind];
    [| intros [= <-]; by right | done].
  destruct (getitem request_json "question") as [q|e]; [|done].
  destruct (get request_json "overrides") as [o|e]; [|done].
  cbn [mbind outcome_bind].
  destruct (run impl g q _) as [r|e]; [|done].
  intros [= <-]. left. by exists r.
Qed.

Lemma chat_try_shapes (chat_rrr : Approach) (approach request_json : json)
    (g : globals) (resp : response) :
  chat_try chat_rrr approach request_json g = Ret resp ->
  (exists r, resp = Response (JsonBody r) 200) \/
  resp = Response (JsonBody (JDict [("error", JStr "unknown approach")])) 400.
Proof.
  unfold chat_try.
  destruct (dict_get _ approach) as [[impl|]|e]; cbn [mbind outcome_bind];
    [| intros [= <-]; by right | done].
  destruct (getitem request_json "history") as [q|e]; [|done].
  destruct (get request_json "overrides") as [o|e]; [|done].
  cbn [mbind outcome_bind].
  destruct (run impl g q _) as [r|e]; [|done].
  intros [= <-]. left. by exists r.
Qed.

(** X2. A response of [ask] or [chat] has one of three shapes and no other:
    status 200 with a JSON body, status 400 with [{"error": "unknown
    approach"}], or status 500 with [{"error": <text>}]. *)
Theorem ask_chat_response_shapes (rtr rrr rda chat_rrr : Approach)
    (request_json : json) (ev : env) (g : globals) (resp : response) :
  snd (ask rtr rrr rda request_json ev g) = Ret resp \/
  snd (chat chat_rrr request_json ev g) = Ret resp ->
  (exists r, resp = Response (JsonBody r) 200) \/
  resp = Response (JsonBody (JDict [("error", JStr "unknown approach")])) 400 \/
  (exists msg, resp = Response (JsonBody (JDict [("error", JStr msg)])) 500).
Proof.
  unfold ask, chat.
  destruct (ensure_openai_token ev g) as [g' [[]|e]]; cbn [snd];
    [|by intros [?|?]].
  destruct (getitem request_json "approach") as [approach|e]; cbn [snd];
    [|by intros [?|?]].
  intros [Hresp|Hresp].
  - destruct (ask_try rtr rrr rda approach request_json g') as [resp'|e] eqn:Htry;
      cbn [try_except] in Hresp; injection Hresp as <-.
    + destruct (ask_try_shapes _ _ _ _ _ _ _ Htry) as [?|?]; auto.
    + right. right. by exists (exn_str e).
  - destruct (chat_try chat_rrr approach request_json g') as [resp'|e] eqn:Htry;
      cbn [try_except] in Hresp; injection Hresp as <-.
    + destruct (chat_try_shapes _ _ _ _ _ Htry) as [?|?]; auto.
    + right. right. by exists (exn_str e).
Qed.

Lemma ask_chat_response_shapes_witness :
  let g := startup {| token := "tok"; expires_on := 5000 |} in
  let ev := {| time_time := 1000 # 1;
               get_token := Ret {| token := "new"; expires_on := 4600 |} |} in
  let request_json := JDict [("approach", JStr "rtr")] in
  let resp := Response (JsonBody (JDict [("error", JStr "'question'")])) 500 in
  snd (ask echo echo echo request_json ev g) = Ret resp /\
  ((exists r, resp = Response (JsonBody r) 200) \/
   resp = Response (JsonBody (JDict [("error", JStr "unknown approach")])) 400 \/
   (exists msg, resp = Response (JsonBody (JDict [("error", JStr msg)])) 500)).
Proof.
  intros g ev request_json resp.
  assert (Hask : snd (ask echo echo echo request_json ev g) = Ret resp)
    by reflexivity.
  split; [exact Hask|].
  exact (ask_chat_response_shapes echo echo echo echo request_json ev g resp
           (or_introl Hask)).
Defined.

(** X3. [chat] hands on what the chat strategy returns: for a request that
    names "rrr" and carries a history, once the token check has returned and
    [run] returns [r], the response is [r] with status 200; [run] gets the
    history and the "overrides" of the request when that value is true in a
    condition, an empty dict otherwise. *)
Theorem chat_returns_run_result (chat_rrr : Approach)
    (d : list (string * json)) (ev : env) (g : globals) (history r : json) :
  snd (ensure_openai_token ev g) = Ret () ->
  assoc "approach" d = Some (JStr "rrr") ->
  assoc "history" d = Some history ->
  let g' := fst (ensure_openai_token ev g) in
  let overrides :=
    match assoc "overrides" d with
    | Some v => if truthy v then v else JDict []
    | None => JDict []
    end in
  run chat_rrr g' history overrides = Ret r ->
  chat chat_rrr (JDict d) ev g = (g', Ret (Response (JsonBody r) 200)).
Proof.
  intros Htok Happ Hh g' overrides Hrun.
  assert (Hget : getitem (JDict d) "approach" = Ret (JStr "rrr"))
    by (cbn [getitem]; by rewrite Happ).
  assert (Hrrr : chat_approaches chat_rrr !! "rrr" = Some chat_rrr)
    by by rewrite chat_approaches_lookup.
  rewrite (chat_after_token _ _ _ _ _ Htok Hget).
  rewrite (chat_try_run _ _ _ _ _ _ Hrrr Hh). fold g'.
  replace (py_or (default JNull (assoc "overrides" d)) (JDict [])) with overrides.
  - by rewrite Hrun.
  - unfold overrides, py_or. by destruct (assoc "overrides" d).
Qed.

Lemma chat_returns_run_result_witness :
  let g := startup {| token := "tok"; expires_on := 5000 |} in
  let ev := {| time_time := 1000 # 1;
               get_token := Ret {| token := "new"; expires_on := 4600 |} |} in
  let history := JList [JDict [("user", JStr "hello")]] in
  let d := [("approach", JStr "rrr"); ("history", history);
            ("overrides", JInt 0)] in
  let r := JDict [("question", history); ("overrides", JDict [])] in
  snd (ensure_openai_token ev g) = Ret () /\
  assoc "approach" d = Some (JStr "rrr") /\
  assoc "history" d = Some history /\
  run echo g history (JDict []) = Ret r /\
  chat echo (JDict d) ev g = (g, Ret (Response (JsonBody r) 200)).
Proof.
  intros g ev history d r.
  assert (Htok : snd (ensure_openai_token ev g) = Ret ()) by reflexivity.
  assert (Happ : assoc "approach" d = Some (JStr "rrr")) by reflexivity.
  assert (Hh : assoc "history" d = Some history) by reflexivity.
  assert (Hrun : run echo g history (JDict []) = Ret r) by reflexivity.
  repeat (split; [assumption|]).
  exact (chat_returns_run_result echo d ev g history r Htok Happ Hh Hrun).
Defined.

(** ** The keys of /get_documents *)

Lemma dropwhile_head {A} (p : A -> bool) (l l' : list A) (x : A) :
  dropwhile p l = x :: l' -> p x = false.
Proof.
  induction l as [|y l IH]; cbn [dropwhile]; [done|].
  destruct (p y) eqn:Hy; [done|]. by intros [= <- _].
Qed.

Lemma dropwhile_app_stop {A} (p : A -> bool) (l1 l2 : list A) (x : A) :
  p x = false -> dropwhile p (l1 ++ x :: l2) = dropwhile p l1 ++ x :: l2.
Proof.
  intros Hx. induction l1 as [|y l1 IH]; cbn [dropwhile app].
  - by rewrite Hx.
  - by destruct (p y).
Qed.

Lemma rstrip_chars_cons (x : ascii) (l : list ascii) :
  isspace x = false -> rstrip_chars (x :: l) = x :: rstrip_chars l.
Proof.
  intros Hx. unfold rstrip_chars. cbn [rev].
  by rewrite dropwhile_app_stop, rev_app_distr.
Qed.

Lemma get_last_snoc (l : list ascii) (y : ascii) :
  String.get (length (l ++ [y]) - 1) (String.string_of_list_ascii (l ++ [y]))
  = Some y.
Proof.
  induction l as [|x l IH]; [done|].
  cbn [app length String.string_of_list_ascii] in *.
  rewrite length_app in *. cbn [length] in *.
  replace (S (length l + 1) - 1) with (S (length l + 1 - 1)) by lia.
  cbn [String.get]. exact IH.
Qed.

Lemma strip_first_char (s : string) (c : ascii) :
  first_char (strip s) = Some c -> isspace c = false.
Proof.
  unfold first_char, strip, lstrip_chars.
  destruct (dropwhile isspace (String.list_ascii_of_string s)) as [|x l] eqn:Hl;
    [done|].
  pose proof (dropwhile_head _ _ _ _ Hl) as Hx.
  rewrite rstrip_chars_cons by done. cbn. by intros [= <-].
Qed.

Lemma strip_last_char (s : string) (c : ascii) :
  last_char (strip s) = Some c -> isspace c = false.
Proof.
  unfold last_char, strip, rstrip_chars.
  rewrite length_string_of_list_ascii.
  destruct (dropwhile isspace (rev (lstrip_chars (String.list_ascii_of_string s))))
    as [|y m] eqn:Hm; [done|].
  pose proof (dropwhile_head _ _ _ _ Hm) as Hy.
  cbn [rev]. rewrite get_last_snoc. by intros [= <-].
Qed.

(** X4. No key in the list of [get_document_names] begins or ends with white
    space. *)
Theorem get_document_names_keys_stripped (environ : gmap string string)
    (acct : account) (documents : list (string * (Z * string)))
    (k : string) (c : ascii) :
  get_document_names environ acct = Ret documents ->
  k ∈ documents.*1 ->
  first_char k = Some c \/ last_char k = Some c ->
  isspace c = false.
Proof.
  unfold get_document_names.
  destruct (list_blobs _ acct) as [blobs|e]; [|done].
  cbn [mbind outcome_bind]. intros [= <-] Hk Hc.
  destruct (fold_get_document_names_step_filed blobs) as [_ Hall].
  specialize (Hall k).
  destruct (assoc k (fold_left get_document_names_step blobs [])) eqn:Hak.
  - destruct Hall as (i & b & (_ & <- & _) & _). unfold base_name in Hc.
    destruct Hc as [Hc|Hc]; [by eapply strip_first_char|by eapply strip_last_char].
  - by apply assoc_None in Hak.
Qed.

Lemma get_document_names_keys_stripped_witness :
  let acct : account :=
    {[ "content" := [ {| name := " plan -0.pdf"; last_modified := 3;
                         etag := "e" |} ] ]} in
  get_document_names ∅ acct = Ret [("plan", (3%Z, "e"))] /\
  "plan" ∈ [("plan", (3%Z, "e"))].*1 /\
  (first_char "plan" = Some "p"%char \/ last_char "plan" = Some "p"%char) /\
  isspace "p" = false.
Proof.
  intros acct.
  assert (Hrun : get_document_names ∅ acct = Ret [("plan", (3%Z, "e"))])
    by reflexivity.
  assert (Hk : "plan" ∈ [("plan", (3%Z, "e"))].*1) by apply list_elem_of_here.
  assert (Hc : first_char "plan" = Some "p"%char \/ last_char "plan" = Some "p"%char)
    by (left; reflexivity).
  repeat (split; [assumption|]).
  exact (get_document_names_keys_stripped ∅ acct _ "plan" "p" Hrun Hk Hc).
Defined.

Lemma elem_of_first_seen (l : list string) (x : string) :
  x ∈ first_seen l <-> x ∈ l.
Proof.
  induction l as [|k l IH]; cbn [first_seen]; [done|].
  rewrite !elem_of_cons, list_elem_of_In, filter_In, <- list_elem_of_In, IH.
  destruct (String.eqb_spec x k) as [->|Hne]; cbn [negb].
  - split; [by left|by intros _; left].
  - split; [intros [?|[? _]]; auto|intros [?|?]; [done|auto]].
Qed.

Lemma first_seen_snoc (l : list string) (k : string) :
  first_seen (l ++ [k])
  = if decide (k ∈ l) then first_seen l else first_seen l ++ [k].
Proof.
  induction l as [|x l IH]; cbn [app first_seen].
  - rewrite decide_False by apply not_elem_of_nil. done.
  - rewrite IH. destruct (decide (k ∈ l)) as [Hin|Hnin].
    + rewrite decide_True by (apply elem_of_cons; auto). done.
    + rewrite List.filter_app. cbn [List.filter].
      destruct (String.eqb_spec k x) as [->|Hne]; cbn [negb].
      * rewrite decide_True by apply list_elem_of_here. by rewrite app_nil_r.
      * rewrite decide_False; [done|].
        intros [?|?]%elem_of_cons; done.
Qed.

Lemma length_first_seen (l : list string) : length (first_seen l) <= length l.
Proof.
  induction l as [|k l IH]; cbn [first_seen length]; [done|].
  pose proof (List.filter_length_le (fun x => negb (String.eqb x k)) (first_seen l)).
  lia.
Qed.

Lemma get_document_names_step_keys (d : list (string * (Z * string)))
    (b : BlobProperties) :
  (get_document_names_step d b).*1
  = if assoc (base_name (name b)) d is Some _ then d.*1
    else d.*1 ++ [base_name (name b)].
Proof.
  unfold get_document_names_step.
  destruct (assoc (base_name (name b)) d) as [[stored e]|] eqn:Hk.
  - destruct (_ <? _)%Z; [done|]. by rewrite setitem_keys, Hk.
  - by rewrite setitem_keys, Hk.
Qed.

Lemma fold_get_document_names_step_keys (blobs : list BlobProperties) :
  (fold_left get_document_names_step blobs []).*1
  = first_seen (map (fun b => base_name (name b)) blobs).
Proof.
  induction blobs as [|b blobs IH] using rev_ind; [done|].
  rewrite fold_left_app, map_app. cbn [fold_left map].
  rewrite get_document_names_step_keys, first_seen_snoc, IH.
  destruct (assoc _ _) eqn:Hk.
  - rewrite decide_True; [done|].
    apply elem_of_first_seen. rewrite <- IH.
    destruct (decide (base_name (name b)
                      ∈ (fold_left get_document_names_step blobs []).*1))
      as [|Hno]; [done|].
    apply assoc_None in Hno. by rewrite Hno in Hk.
  - rewrite decide_False; [done|].
    rewrite <- elem_of_first_seen, <- IH. by apply assoc_None.
Qed.

(** X5. The list of [get_document_names] is in the order in which the base
    names first come up in the enumeration, later blobs of a group changing
    the pair but not the place; so it is never longer than the enumeration,
    and it is empty for an empty container. *)
Theorem get_document_names_order (environ : gmap string string) (acct : account)
    (blobs : list BlobProperties) :
  list_blobs (AZURE_STORAGE_CONTAINER environ) acct = Ret blobs ->
  exists documents,
    get_document_names environ acct = Ret documents /\
    documents.*1 = first_seen (map (fun b => base_name (name b)) blobs) /\
    length documents <= length blobs /\
    (blobs = [] -> documents = []).
Proof.
  intros Hlist. exists (fold_left get_document_names_step blobs []).
  unfold get_document_names. rewrite Hlist. split; [done|].
  split; [apply fold_get_document_names_step_keys|]. split.
  - rewrite <- (length_fmap fst), fold_get_document_names_step_keys.
    etrans; [apply length_first_seen|]. by rewrite length_map.
  - by intros ->.
Qed.

Lemma get_document_names_order_witness :
  let blobs :=
    [ {| name := "b-0.pdf"; last_modified := 30; etag := "e1" |};
      {| name := "a-0.pdf"; last_modified := 7; etag := "e2" |};
      {| name := "b-1.pdf"; last_modified := 20; etag := "e3" |} ] in
  let acct : account := {[ "content" := blobs ]} in
  list_blobs (AZURE_STORAGE_CONTAINER ∅) acct = Ret blobs /\
  exists documents,
    get_document_names ∅ acct = Ret documents /\
    documents.*1 = first_seen (map (fun b => base_name (name b)) blobs) /\
    length documents <= length blobs /\
    (blobs = [] -> documents = []).
Proof.
  intros blobs acct.
  assert (Hlist : list_blobs (AZURE_STORAGE_CONTAINER ∅) acct = Ret blobs)
    by reflexivity.
  split; [exact Hlist|].
  exact (get_document_names_order ∅ acct blobs Hlist).
Defined.

Example first_seen_sample :
  first_seen ["b"; "a"; "b"; "c"; "a"] = ["b"; "a"; "c"].
Proof. reflexivity. Qed.

(** ** /delete_document, the blobs and the search loop *)

Section DeleteDocumentMore.

Context (environ : gmap string string)
  (delete_fault : string -> string -> option exn)
  (str_of_value : json -> string) {I : Type} `{SearchService I}.

Lemma filter_all {A} (f : A -> bool) (l : list A) :
  (forall x, In x l -> f x = true) -> List.filter f l = l.
Proof.
  induction l as [|x l IH]; cbn [List.filter]; [done|]. intros Hall.
  rewrite (Hall x) by by left. f_equal. apply IH. intros y Hy. apply Hall. by right.
Qed.

Lemma filter_twice {A} (f g : A -> bool) (l : list A) :
  List.filter f (List.filter g l) = List.filter (fun x => g x && f x) l.
Proof.
  induction l as [|x l IH]; cbn [List.filter]; [done|].
  destruct (g x); cbn [andb List.filter]; [|done].
  destruct (f x); by rewrite IH.
Qed.

(** The blobs of a container after one deletion request. *)
Lemma delete_blob_content (blob_name : string) (w : world I)
    (cur : list BlobProperties) :
  storage w !! "content" = Some cur ->
  storage (fst (delete_blob delete_fault "content" blob_name w)) !! "content"
  = Some (if delete_fault "content" blob_name is None
          then List.filter (fun b => negb (String.eqb (name b) blob_name)) cur
          else cur).
Proof.
  intros Hcur. unfold delete_blob, log. cbn [storage index trace].
  rewrite Hcur. destruct (existsb _ cur) eqn:Hex.
  - destruct (delete_fault "content" blob_name); cbn [fst storage]; [done|].
    apply lookup_insert_eq.
  - cbn [fst storage]. rewrite Hcur.
    destruct (delete_fault "content" blob_name); [done|].
    f_equal. symmetry. apply filter_all. intros b Hb.
    destruct (String.eqb (name b) blob_name) eqn:Hn; [|done].
    assert (existsb (fun b0 => String.eqb (name b0) blob_name) cur = true)
      by (apply existsb_exists; eauto).
    congruence.
Qed.

Lemma delete_blobs_content (p : string) (blob_list : list BlobProperties)
    (w : world I) (cur : list BlobProperties) :
  storage w !! "content" = Some cur ->
  storage (fst (delete_blobs delete_fault (JStr p) blob_list w)) !! "content"
  = Some (List.filter
            (fun b => negb (String.prefix p (name b)
                            && bool_decide (delete_fault "content" (name b) = None)
                            && existsb (fun b' => String.eqb (name b) (name b'))
                                 blob_list))
            cur).
Proof.
  revert w cur. induction blob_list as [|blob rest IH]; intros w cur Hcur.
  - cbn [delete_blobs fst existsb]. rewrite Hcur. f_equal. symmetry.
    apply filter_all. intros b _. by rewrite andb_false_r.
  - cbn [delete_blobs startswith existsb].
    destruct (String.prefix p (name blob)) eqn:Hp.
    + rewrite (IH _ _ (delete_blob_content (name blob) w cur Hcur)). f_equal.
      destruct (delete_fault "content" (name blob)) as [e|] eqn:Hf.
      * apply List.filter_ext. intros b.
        destruct (String.eqb_spec (name b) (name blob)) as [Hn|Hn]; [|done].
        rewrite Hn, Hf. rewrite bool_decide_eq_false_2 by done.
        by rewrite !andb_false_r.
      * rewrite filter_twice. apply List.filter_ext. intros b.
        destruct (String.eqb_spec (name b) (name blob)) as [Hn|Hn]; [|done].
        rewrite Hn, Hp, Hf. by rewrite bool_decide_eq_true_2.
    + rewrite (IH _ _ Hcur). f_equal. apply List.filter_ext. intros b.
      destruct (String.eqb_spec (name b) (name blob)) as [Hn|Hn]; [|done].
      rewrite Hn, Hp. done.
Qed.

(** The storage account after [delete_document] is the one the loop over the
    blobs left: the search loop does not touch it. *)
Lemma delete_document_storage (fuel : nat) (d : list (string * json))
    (p : string) (blob_list : list BlobProperties) (w : world I) :
  assoc "name" d = Some (JStr p) -> p <> "" ->
  storage w !! AZURE_STORAGE_CONTAINER environ = Some blob_list ->
  storage (fst (delete_document environ delete_fault str_of_value fuel
                  (JDict d) w))
  = storage (fst (delete_blobs delete_fault (JStr p) blob_list
                    (log (EvListBlobs (AZURE_STORAGE_CONTAINER environ)) w))).
Proof.
  intros Hname Hp Hlist. unfold delete_document. cbn [get].
  rewrite Hname. cbn [default from_option id truthy format].
  destruct (String.eqb_spec p "") as [?|_]; [done|]. cbn [negb].
  unfold list_blobs. cbn [log storage]. rewrite Hlist.
  destruct (delete_blobs_prefix delete_fault p blob_list
              (log (EvListBlobs (AZURE_STORAGE_CONTAINER environ)) w))
    as (w2 & Hrun & _).
  rewrite Hrun. cbn [fst].
  match goal with |- context [delete_sections fuel ?f w2] =>
    pose proof (delete_sections_frame fuel f w2) as [Hst _];
    destruct (delete_sections fuel f w2) as [w3 [[]|]] end;
    cbn [fst] in *; done.
Qed.

End DeleteDocumentMore.

(** X6. With the application on its default container "content": after
    [delete_document] for a name that is a non-empty string, the container
    holds the blobs it held, in their order, less those whose name starts with
    the given name and whose deletion the service did not refuse. This holds
    for every fuel, so also while the search loop is still running. *)
Theorem delete_document_content_after (environ : gmap string string)
    (delete_fault : string -> string -> option exn)
    (str_of_value : json -> string) {I : Type} `{SearchService I}
    (fuel : nat) (d : list (string * json)) (p : string)
    (blobs : list BlobProperties) (w : world I) :
  AZURE_STORAGE_CONTAINER environ = "content" ->
  assoc "name" d = Some (JStr p) -> p <> "" ->
  storage w !! "content" = Some blobs ->
  storage (fst (delete_document environ delete_fault str_of_value fuel
                  (JDict d) w)) !! "content"
  = Some (List.filter
            (fun b => negb (String.prefix p (name b)
                            && bool_decide (delete_fault "content" (name b) = None)))
            blobs).
Proof.
  intros Hcfg Hname Hp Hblobs.
  rewrite (delete_document_storage environ delete_fault str_of_value fuel d p blobs)
    by (done || by rewrite Hcfg).
  rewrite (delete_blobs_content delete_fault p blobs _ blobs) by done.
  f_equal. apply List.filter_ext_in. intros b Hb.
  assert (existsb (fun b' => String.eqb (name b) (name b')) blobs = true) as ->.
  { apply existsb_exists. exists b. split; [done|apply String.eqb_refl]. }
  by rewrite andb_true_r.
Qed.

Lemma delete_document_content_after_witness :
  let keep := {| name := "memo-0.pdf"; last_modified := 1; etag := "e1" |} in
  let gone := {| name := "plan-0.pdf"; last_modified := 2; etag := "e2" |} in
  let held := {| name := "plan-1.pdf"; last_modified := 3; etag := "e3" |} in
  let fault := fun (_ n : string) =>
    if String.eqb n "plan-1.pdf" then Some (Exn "HttpResponseError" "lease")
    else None in
  let w := World {[ "content" := [keep; gone; held] ]} ([] : list document) [] in
  let d := [("name", JStr "plan")] in
  AZURE_STORAGE_CONTAINER ∅ = "content" /\
  assoc "name" d = Some (JStr "plan") /\ "plan" <> "" /\
  storage w !! "content" = Some [keep; gone; held] /\
  storage (fst (delete_document ∅ fault (fun _ => "") 0 (JDict d) w)) !! "content"
  = Some [keep; held].
Proof.
  intros keep gone held fault w d.
  assert (Hcfg : AZURE_STORAGE_CONTAINER ∅ = "content") by reflexivity.
  assert (Hname : assoc "name" d = Some (JStr "plan")) by reflexivity.
  assert (Hp : "plan" <> "") by discriminate.
  assert (Hblobs : storage w !! "content" = Some [keep; gone; held])
    by reflexivity.
  repeat (split; [assumption|]).
  exact (delete_document_content_after ∅ fault (fun _ => "") 0 d "plan"
           [keep; gone; held] w Hcfg Hname Hp Hblobs).
Defined.

Section SearchLoop.

Context {I : Type} `{SearchService I}.

Lemma delete_sections_returns (fuel : nat) (filter : string) (w w' : world I) :
  delete_sections fuel filter w = (w', Some ()) ->
  hits (search "*" (Some filter) 1000 (index w')) = [] /\
  exists t, trace w' = t ++ [EvSearch "*" (Some filter) 1000].
Proof.
  revert w. induction fuel as [|fuel IH]; intros w; [done|].
  cbn [delete_sections].
  destruct (Nat.eqb_spec (length (hits (search "*" (Some filter) 1000 (index w)))) 0)
    as [Hz|Hnz]; [|apply IH].
  intros [= <-]. cbn [log index trace]. split; [|by eexists].
  by apply length_zero_iff_nil.
Qed.

End SearchLoop.

(** X7. [delete_document] answers "200" only after a search that returned
    nothing: when it returns for a name that is a non-empty string, its last
    call was the search with the filter [sourcefile eq '<name>.pdf'], and in
    the index as it then stands that search has no hit. *)
Theorem delete_document_returns_after_empty_search
    (environ : gmap string string)
    (delete_fault : string -> string -> option exn)
    (str_of_value : json -> string) {I : Type} `{SearchService I}
    (fuel : nat) (d : list (string * json)) (p : string)
    (w w' : world I) (resp : response) :
  assoc "name" d = Some (JStr p) -> p <> "" ->
  delete_document environ delete_fault str_of_value fuel (JDict d) w
  = (w', Some (Ret resp)) ->
  let filter := "sourcefile eq '" +:+ p +:+ ".pdf'" in
  resp = Response (TextBody "200") 200 /\
  hits (search "*" (Some filter) 1000 (index w')) = [] /\
  exists t, trace w' = t ++ [EvSearch "*" (Some filter) 1000].
Proof.
  intros Hname Hp. unfold delete_document. cbn [get].
  rewrite Hname. cbn [default from_option id truthy format].
  destruct (String.eqb_spec p "") as [?|_]; [done|]. cbn [negb].
  destruct (list_blobs _ _); [|done].
  destruct (delete_blobs _ _ _ _) as [w2 [[]|e]]; [|done].
  destruct (delete_sections fuel _ w2) as [w3 [[]|]] eqn:Hloop; [|done].
  intros [= <- <-]. split; [done|].
  by apply (delete_sections_returns fuel _ w2).
Qed.

Lemma delete_document_returns_after_empty_search_witness :
  let blob := {| name := "plan-0.pdf"; last_modified := 1; etag := "e" |} in
  let sec := {| doc_id := "plan-0"; doc_fields := [("sourcefile", JStr "plan.pdf")] |} in
  let other := {| doc_id := "memo-0"; doc_fields := [("sourcefile", JStr "memo.pdf")] |} in
  let w := World {[ "content" := [blob] ]} [sec; other] [] in
  let w' := fst (delete_document ∅ (fun _ _ => None) (fun _ => "") 2
                   (JDict [("name", JStr "plan")]) w) in
  assoc "name" [("name", JStr "plan")] = Some (JStr "plan") /\ "plan" <> "" /\
  delete_document ∅ (fun _ _ => None) (fun _ => "") 2
    (JDict [("name", JStr "plan")]) w
  = (w', Some (Ret (Response (TextBody "200") 200))) /\
  index w' = [other] /\
  hits (search "*" (Some "sourcefile eq 'plan.pdf'") 1000 (index w')) = [].
Proof.
  intros blob sec other w w'.
  assert (Hname : assoc "name" [("name", JStr "plan")] = Some (JStr "plan"))
    by reflexivity.
  assert (Hp : "plan" <> "") by discriminate.
  assert (Hrun : delete_document ∅ (fun _ _ => None) (fun _ => "") 2
                   (JDict [("name", JStr "plan")]) w
                 = (w', Some (Ret (Response (TextBody "200") 200))))
    by (vm_compute; reflexivity).
  repeat (split; [assumption|]).
  split; [vm_compute; reflexivity|].
  exact (proj1 (proj2 (delete_document_returns_after_empty_search ∅
                         (fun _ _ => None) (fun _ => "") 2 _ "plan" w w' _
                         Hname Hp Hrun))).
Defined.

Section SearchLoopEnds.

Context {I : Type} `{SearchService I}.

Lemma delete_sections_S (fuel : nat) (filter : string) (w : world I) :
  delete_sections (S fuel) filter w
  = if Nat.eqb (section_hits filter w) 0
    then (log (EvSearch "*" (Some filter) 1000) w, Some ())
    else delete_sections fuel filter (section_round filter w).
Proof.
  cbn [delete_sections]. unfold section_hits.
  destruct (Nat.eqb _ 0); [done|].
  f_equal. unfold section_round, log. cbn [storage index trace].
  by rewrite <- !app_assoc.
Qed.

Lemma sections_reduce_round (filter : string) (w : world I) :
  sections_reduce filter w -> sections_reduce filter (section_round filter w).
Proof.
  intros Hw k. rewrite <- Nat.iter_succ_r. intros Hk.
  destruct (Hw (S k) Hk) as [n Hn]. exists n.
  by rewrite <- Nat.iter_succ_r, <- Nat.add_succ_r.
Qed.

Lemma sections_reduce_iter (filter : string) (n : nat) (w : world I) :
  sections_reduce filter w ->
  sections_reduce filter (Nat.iter n (section_round filter) w).
Proof.
  intros Hw. induction n as [|n IH]; [done|].
  cbn [Nat.iter]. by apply sections_reduce_round.
Qed.

Lemma sections_done_iter (filter : string) (n : nat) (w : world I) :
  sections_done filter (Nat.iter n (section_round filter) w) ->
  sections_done filter w.
Proof.
  revert w. induction n as [|n IH]; intros w; [done|].
  rewrite Nat.iter_succ_r. intros Hn. apply IH in Hn as (fuel & w' & Hrun).
  destruct (section_hits filter w) as [|c] eqn:Hw.
  - exists 1. eexists. by rewrite delete_sections_S, Hw.
  - exists (S fuel), w'. by rewrite delete_sections_S, Hw.
Qed.

Lemma sections_reduce_done (filter : string) (w : world I) :
  sections_reduce filter w -> sections_done filter w.
Proof.
  remember (section_hits filter w) as c eqn:Hc. revert w Hc.
  induction c as [c IH] using lt_wf_ind. intros w -> Hw.
  destruct (decide (section_hits filter w = 0)) as [Hz|Hnz].
  - exists 1. eexists. by rewrite delete_sections_S, Hz.
  - destruct (Hw 0 Hnz) as [n Hn]. rewrite Nat.add_0_r in Hn.
    cbn [Nat.iter] in Hn. apply (sections_done_iter filter n).
    by apply (IH _ Hn); [|apply sections_reduce_iter].
Qed.

End SearchLoopEnds.

(** X8. [delete_document] comes to its end when the deletions in the index
    take effect: for a name that is a non-empty string and a container that
    exists, if from the state the loop over the blobs left the searches for
    [sourcefile eq '<name>.pdf'] eventually get fewer hits, then with enough
    fuel the handler returns "200" with status 200. *)
Theorem delete_document_terminates (environ : gmap string string)
    (delete_fault : string -> string -> option exn)
    (str_of_value : json -> string) {I : Type} `{SearchService I}
    (d : list (string * json)) (p : string)
    (blob_list : list BlobProperties) (w : world I) :
  assoc "name" d = Some (JStr p) -> p <> "" ->
  storage w !! AZURE_STORAGE_CONTAINER environ = Some blob_list ->
  sections_reduce ("sourcefile eq '" +:+ p +:+ ".pdf'")
    (fst (delete_blobs delete_fault (JStr p) blob_list
            (log (EvListBlobs (AZURE_STORAGE_CONTAINER environ)) w))) ->
  exists fuel w',
    delete_document environ delete_fault str_of_value fuel (JDict d) w
    = (w', Some (Ret (Response (TextBody "200") 200))).
Proof.
  intros Hname Hp Hlist Hred.
  destruct (sections_reduce_done _ _ Hred) as (fuel & w' & Hloop).
  exists fuel, w'. unfold delete_document. cbn [get].
  rewrite Hname. cbn [default from_option id truthy format].
  destruct (String.eqb_spec p "") as [?|_]; [done|]. cbn [negb].
  unfold list_blobs. cbn [log storage]. rewrite Hlist.
  destruct (delete_blobs_prefix delete_fault p blob_list
              (log (EvListBlobs (AZURE_STORAGE_CONTAINER environ)) w))
    as (w2 & Hrun & _).
  rewrite Hrun in Hloop |- *. cbn [fst] in Hloop. by rewrite Hloop.
Qed.

Lemma prompt_index_section_round_nil (filter : string) (k : nat)
    (w : world (list document)) :
  index (section_round filter w) = [] ->
  index (Nat.iter (S k) (section_round filter) w) = [].
Proof.
  intros Hw. induction k as [|k IH]; [done|].
  change (Nat.iter (S (S k)) (section_round filter) w)
    with (section_round filter (Nat.iter (S k) (section_round filter) w)).
  unfold section_round at 1. cbn [index]. by rewrite IH.
Qed.

Lemma delete_document_terminates_witness :
  let blob := {| name := "plan-0.pdf"; last_modified := 1; etag := "e" |} in
  let sec := {| doc_id := "plan-0"; doc_fields := [("sourcefile", JStr "plan.pdf")] |} in
  let w := World {[ "content" := [blob] ]} [sec] [] in
  let d := [("name", JStr "plan")] in
  assoc "name" d = Some (JStr "plan") /\ "plan" <> "" /\
  storage w !! AZURE_STORAGE_CONTAINER ∅ = Some [blob] /\
  sections_reduce ("sourcefile eq '" +:+ "plan" +:+ ".pdf'")
    (fst (delete_blobs (fun _ _ => None) (JStr "plan") [blob]
            (log (EvListBlobs (AZURE_STORAGE_CONTAINER ∅)) w))) /\
  exists fuel w',
    delete_document ∅ (fun _ _ => None) (fun _ => "") fuel (JDict d) w
    = (w', Some (Ret (Response (TextBody "200") 200))).
Proof.
  intros blob sec w d.
  assert (Hname : assoc "name" d = Some (JStr "plan")) by reflexivity.
  assert (Hp : "plan" <> "") by discriminate.
  assert (Hlist : storage w !! AZURE_STORAGE_CONTAINER ∅ = Some [blob])
    by reflexivity.
  assert (Hred : sections_reduce ("sourcefile eq '" +:+ "plan" +:+ ".pdf'")
            (fst (delete_blobs (fun _ _ => None) (JStr "plan") [blob]
                    (log (EvListBlobs (AZURE_STORAGE_CONTAINER ∅)) w)))).
  { intros [|k].
    - intros _. exists 1. vm_compute. lia.
    - intros Hk. exfalso. apply Hk. unfold section_hits.
      rewrite prompt_index_section_round_nil; [done|]. vm_compute. reflexivity. }
  repeat (split; [assumption|]).
  exact (delete_document_terminates ∅ (fun _ _ => None) (fun _ => "") d "plan"
           [blob] w Hname Hp Hlist Hred).
Defined.
